(** * RA6963 graphic LCD controller driver (RA6963.py)

    A shallow embedding of the Python class [RA6963] and of the
    module-level declarations it relies on.  The class drives the chip
    through the foreign library parallel.so, loaded with ctypes; the
    library itself is foreign code, so every call into it is recorded
    as an event of a trace, and whatever the library hands back (the
    value left in the return register, the cells it stores into a
    caller's buffer) is taken from an arbitrary oracle. *)

From Stdlib Require Import ZArith List String Bool Lia.
Import ListNotations.
Local Open Scope string_scope.
Local Open Scope list_scope.
Local Open Scope Z_scope.

(** ** ctypes conversions *)

Module Ctypes.

(** Integer setters of ctypes do no overflow checking: the value is
    reduced to the width of the C type. *)
Definition c_ubyte (v : Z) : Z := Z.land v 0xFF.
Definition c_uint8 (v : Z) : Z := Z.land v 0xFF.
Definition c_uint16 (v : Z) : Z := Z.land v 0xFFFF.
Definition c_uint (v : Z) : Z := Z.land v 0xFFFFFFFF.
Definition c_uint64 (v : Z) : Z := Z.land v 0xFFFFFFFFFFFFFFFF.

(** [c_int] is signed: the restype every foreign function gets unless
    the program sets another one. *)
Definition c_int (v : Z) : Z := (v + 2 ^ 31) mod 2 ^ 32 - 2 ^ 31.

(** The bytes of [v] in memory, least significant first. *)
Fixpoint le_bytes (n : nat) (v : Z) : list Z :=
  match n with
  | O => []
  | S n' => Z.land v 0xFF :: le_bytes n' (Z.shiftr v 8)
  end.

(** Most significant first. *)
Definition be_bytes (n : nat) (v : Z) : list Z := rev (le_bytes n v).

(** [(c_uint16.__ctype_le__ * len)(v0, v1, ...)]: an array of [len]
    little-endian 16-bit cells; cells without an initialiser are 0. *)
Fixpoint c_uint16_le_array (len : nat) (init : list Z) : list Z :=
  match len with
  | O => []
  | S len' =>
      match init with
      | [] => le_bytes 2 0 ++ c_uint16_le_array len' []
      | v :: init' => le_bytes 2 (c_uint16 v) ++ c_uint16_le_array len' init'
      end
  end.

(** [(c_uint64.__ctype_be__ * 1)(v)]. *)
Definition c_uint64_be_array1 (v : Z) : list Z := be_bytes 8 (c_uint64 v).

(** [(c_uint8 * 1)(v)] and [(c_uint8 * 1)()]. *)
Definition c_uint8_array1 (init : option Z) : list Z :=
  match init with
  | Some v => [c_uint8 v]
  | None => [0]
  end.

End Ctypes.
Import Ctypes.

(** ** The foreign library *)

(** The handle [initialise] returns stands for the arguments it was
    given: the data lines, the control lines, the protocol and the
    five waiting times. *)
Record Device := mkDevice {
  d7 : Z; d6 : Z; d5 : Z; d4 : Z; d3 : Z; d2 : Z; d1 : Z; d0 : Z;
  rscd : Z; enwr : Z; rwrd : Z;
  protocol : Z;
  tsetup : Z; tclock : Z; tread : Z; tproc : Z; thold : Z
}.

Definition initialise (p7 p6 p5 p4 p3 p2 p1 p0 cd wr rd proto ts tc tr tp th : Z)
  : Device :=
  mkDevice p7 p6 p5 p4 p3 p2 p1 p0 cd wr rd proto ts tc tr tp th.

(** A GPIO number outside 0-27 leaves the line undefined; without the
    RW/RD line the chip can only be written. *)
Definition gpio_defined (pin : Z) : bool := (0 <=? pin) && (pin <=? 27).
Definition write_only (dev : Device) : bool := negb (gpio_defined (rwrd dev)).

(** What the program makes happen outside itself, in order. *)
Inductive Event : Type :=
| GpioWrite (gpio level : Z)
| GpioSetMode (gpio mode : Z)
| WriteCommand (dev : Device) (datacom : Z)
| WriteData (dev : Device) (data : list Z)
| ReadData (dev : Device) (datanum : Z) (data : list Z)
| ReadRegister (dev : Device) (register : Z)
| Print (text : string).

(** The part of parallel.so the program can observe.  Each function is
    given the trace before the call and its arguments.  The results of
    [writedata], [readdata], [gpioWrite] and [gpioSetMode] are dropped
    by every caller and are left out. *)
Record Library := mkLibrary {
  (** the raw value [writecommand] leaves as its result *)
  writecommand_result : list Event -> Device -> Z -> Z;
  (** the raw value [readregister] leaves as its result *)
  readregister_result : list Event -> Device -> Z;
  (** what [readdata] stores in cell [i] of the caller's buffer, if it
      stores anything there *)
  readdata_store : list Event -> Device -> Z -> nat -> option Z
}.

(** ** Python values, exceptions and the state of a run *)

Inductive value : Type :=
| VInt (z : Z)
| VNone.

Inductive exn : Type :=
| NameError (name : string)
| TypeError
| IndexError
| UnsupportedOperation.

Inductive result (A : Type) : Type :=
| Return (a : A)
| Raise (e : exn).
Arguments Return {A} a.
Arguments Raise {A} e.

(** The attributes of an instance of [RA6963] the methods below use. *)
Record Instance := mkInstance {
  _pixx : Z;
  _pixy : Z;
  _rst : Z;
  addr : option (list Z);
  _displaymode : value;
  _modeset : value;
  _dev : Device;
  textaddress : Z;
  graphicaddress : Z;
  cgaddress : Z
}.

Record State := mkState {
  self : Instance;
  trace : list Event
}.

Definition set_textaddress (v : Z) (i : Instance) : Instance :=
  mkInstance (_pixx i) (_pixy i) (_rst i) (addr i) (_displaymode i) (_modeset i)
             (_dev i) v (graphicaddress i) (cgaddress i).
Definition set_graphicaddress (v : Z) (i : Instance) : Instance :=
  mkInstance (_pixx i) (_pixy i) (_rst i) (addr i) (_displaymode i) (_modeset i)
             (_dev i) (textaddress i) v (cgaddress i).
Definition set_cgaddress (v : Z) (i : Instance) : Instance :=
  mkInstance (_pixx i) (_pixy i) (_rst i) (addr i) (_displaymode i) (_modeset i)
             (_dev i) (textaddress i) (graphicaddress i) v.
Definition set_displaymode (v : value) (i : Instance) : Instance :=
  mkInstance (_pixx i) (_pixy i) (_rst i) (addr i) v (_modeset i)
             (_dev i) (textaddress i) (graphicaddress i) (cgaddress i).
Definition set_modeset (v : value) (i : Instance) : Instance :=
  mkInstance (_pixx i) (_pixy i) (_rst i) (addr i) (_displaymode i) v
             (_dev i) (textaddress i) (graphicaddress i) (cgaddress i).
Definition set_addr (v : option (list Z)) (i : Instance) : Instance :=
  mkInstance (_pixx i) (_pixy i) (_rst i) v (_displaymode i) (_modeset i)
             (_dev i) (textaddress i) (graphicaddress i) (cgaddress i).

(** A computation changes the state and either returns or raises; what
    it did before raising stays done. *)
Definition M (A : Type) : Type := State -> result A * State.

Definition ret {A} (a : A) : M A := fun s => (Return a, s).
Definition raise {A} (e : exn) : M A := fun s => (Raise e, s).
Definition bind {A B} (m : M A) (k : A -> M B) : M B :=
  fun s =>
    match m s with
    | (Return a, s') => k a s'
    | (Raise e, s') => (Raise e, s')
    end.

Notation "x <- m ;; k" := (bind m (fun x => k))
  (at level 61, m at next level, right associativity).
Notation "m ;; k" := (bind m (fun _ => k))
  (at level 61, right associativity).

Definition attr {A} (f : Instance -> A) : M A := fun s => (Return (f (self s)), s).
Definition assign (upd : Instance -> Instance) : M unit :=
  fun s => (Return tt, mkState (upd (self s)) (trace s)).
Definition emit (e : Event) : M unit :=
  fun s => (Return tt, mkState (self s) (trace s ++ [e])).
Definition history : M (list Event) := fun s => (Return (trace s), s).

(** ** Module-level names *)

Definition module_globals : list (string * Z) :=
  [ ("PI_OUTPUT", 1); ("PI_ALT0", 4); ("PI_ALT5", 2);
    ("PWMPER", 100000);
    ("LCD_SETCURSORPOINTER", 0x21);
    ("LCD_SETOFFSETREGISTER", 0x22);
    ("LCD_SETADDRESSPOINTER", 0x24);
    ("LCD_SETTEXTHOMEADDRESS", 0x40);
    ("LCD_SETTEXTAREA", 0x41);
    ("LCD_SETGRAPHICHOMEADDRESS", 0x42);
    ("LCD_SETGRAPHICAREA", 0x43);
    ("LCD_MODESET", 0x80);
    ("LCD_DISPLAYMODE", 0x90);
    ("LCD_CURSORPATTERNSELECT", 0xA0);
    ("LCD_DATAWRITEINCREMENT", 0xC0);
    ("LCD_DATAREADINCREMENT", 0xC1);
    ("LCD_DATAWRITEDECREMENT", 0xC2);
    ("LCD_DATAEREADDECREMENT", 0xC2);
    ("LCD_DATAWRITENONVARIABLE", 0xC4);
    ("LCD_DATAREADNONVARIABLE", 0xC4);
    ("LCD_SETDATAAUTOWRITE", 0xB0);
    ("LCD_SETDATAAUTOREAD", 0xB1);
    ("LCD_AUTORESET", 0xB2);
    ("LCD_SCREENPEEK", 0xE0);
    ("LCD_SCREENCOPY", 0xE8);
    ("LCD_BITRESET", 0xF0);
    ("LCD_BITSET", 0xF8);
    ("LCD_SCREENREVERSE", 0xD0);
    ("LCD_BLINKTIME", 0x50);
    ("LCD_CURSORAUTOMOVING", 0x60);
    ("LCD_CGROMFONTSELECT", 0x70);
    ("LCD_OR", 0x00);
    ("LCD_EXOR", 0x01);
    ("LCD_AND", 0x03);
    ("LCD_TEXTATTRIBUTE", 0x04);
    ("LCD_EXTERNALCGROM", 0x08);
    ("LCD_CURSORBLINK", 0x01);
    ("LCD_CURSORON", 0x02);
    ("LCD_TEXTON", 0x04);
    ("LCD_GRAPHICON", 0x08) ].

Fixpoint lookup (name : string) (table : list (string * Z)) : option Z :=
  match table with
  | [] => None
  | (n, v) :: rest => if String.eqb name n then Some v else lookup name rest
  end.

(** Reading a global name: a name the module never bound raises
    [NameError] when the expression is evaluated. *)
Definition global (name : string) : M Z :=
  match lookup name module_globals with
  | Some v => ret v
  | None => raise (NameError name)
  end.

(** ** Operators on values *)

(** [a | b] and [a & b] with an integer on the right; [None] on the
    left has no such operator. *)
Definition py_or (a : value) (b : Z) : M value :=
  match a with
  | VInt z => ret (VInt (Z.lor z b))
  | VNone => raise TypeError
  end.
Definition py_and (a : value) (b : Z) : M value :=
  match a with
  | VInt z => ret (VInt (Z.land z b))
  | VNone => raise TypeError
  end.
(** [b | a] with the integer on the left. *)
Definition py_ror (b : Z) (a : value) : M Z :=
  match a with
  | VInt z => ret (Z.lor b z)
  | VNone => raise TypeError
  end.

(** [l[n]]. *)
Definition getitem (l : list Z) (n : nat) : M Z :=
  match nth_error l n with
  | Some v => ret v
  | None => raise IndexError
  end.

(** [for i in l: body]. *)
Fixpoint for_each {A} (l : list A) (body : A -> M unit) : M unit :=
  match l with
  | [] => ret tt
  | i :: rest => body i ;; for_each rest body
  end.

(** ** The ctypes function objects of the module *)

Module parallel.
Section Calls.
Variable so : Library.

(** [gpioWrite.argtypes = [c_uint, c_uint]]. *)
Definition gpioWrite (gpio level : Z) : M unit :=
  emit (GpioWrite (c_uint gpio) (c_uint level)).

(** [writecommand.argtypes = [c_void_p, c_ubyte]].  The module sets no
    restype for it, and ctypes then reads the result as a C int: the
    call evaluates to a Python integer, never to [None]. *)
Definition writecommand (dev : Device) (datacom : Z) : M value :=
  h <- history ;;
  emit (WriteCommand dev (c_ubyte datacom)) ;;
  ret (VInt (c_int (writecommand_result so h dev (c_ubyte datacom)))).

(** [writedata.argtypes = [c_void_p, c_void_p, c_int]]: [datanum]
    bytes of the buffer go out.  No caller below passes a count
    beyond its buffer; the event stops at the end of the buffer. *)
Definition writedata (dev : Device) (datapos : list Z) (datanum : Z) : M unit :=
  emit (WriteData dev (firstn (Z.to_nat (c_int datanum)) datapos)).

(** The caller's buffer after the library stored into it. *)
Fixpoint stored (store : nat -> option Z) (i : nat) (buffer : list Z) : list Z :=
  match buffer with
  | [] => []
  | old :: rest =>
      match store i with
      | Some v => c_ubyte v
      | None => old
      end :: stored store (S i) rest
  end.

(** [readdata.argtypes = [c_void_p, c_void_p, c_int]]; evaluates, for
    the model, to the buffer as the call left it. *)
Definition readdata (dev : Device) (datapos : list Z) (datanum : Z) : M (list Z) :=
  h <- history ;;
  let after := stored (readdata_store so h dev (c_int datanum)) 0 datapos in
  emit (ReadData dev (c_int datanum) after) ;;
  ret after.

(** [readregister.argtypes = [c_void_p]]; the restype is the default
    one again, a C int. *)
Definition readregister (dev : Device) : M value :=
  h <- history ;;
  let r := c_int (readregister_result so h dev) in
  emit (ReadRegister dev r) ;;
  ret (VInt r).

End Calls.
End parallel.

(** ** The class *)

Module RA6963.
Section Methods.
Variable so : Library.

Definition cg_warning : string :=
  "지정된 CG 주소가 잘못됨. 더 낮은 올바른 주소로 반올림 중...".

Definition print (text : string) : M unit := emit (Print text).

Definition startup : M value :=
  rst <- attr _rst ;;
  parallel.gpioWrite rst 0 ;;
  rst <- attr _rst ;;
  parallel.gpioWrite rst 1 ;;
  a <- attr addr ;;
  match a with
  | None =>
      assign (set_textaddress 0x0000) ;;
      assign (set_graphicaddress 0x1000) ;;
      assign (set_cgaddress 0x7800)
  | Some l =>
      v <- getitem l 0 ;; assign (set_textaddress v) ;;
      v <- getitem l 1 ;; assign (set_graphicaddress v) ;;
      v <- getitem l 2 ;; assign (set_cgaddress v)
  end ;;
  v <- attr textaddress ;;
  let temp := c_uint16_le_array 1 [v] in
  dev <- attr _dev ;;
  parallel.writedata dev temp 2 ;;
  dev <- attr _dev ;;
  c <- global "LCD_SETTEXTHOMEADDRESS" ;;
  parallel.writecommand so dev c ;;
  x <- attr _pixx ;;
  let temp := c_uint16_le_array 1 [x / 8] in
  dev <- attr _dev ;;
  parallel.writedata dev temp 2 ;;
  dev <- attr _dev ;;
  c <- global "LCD_SETTEXTAREA" ;;
  parallel.writecommand so dev c ;;
  v <- attr graphicaddress ;;
  let temp := c_uint16_le_array 1 [v] in
  dev <- attr _dev ;;
  parallel.writedata dev temp 2 ;;
  dev <- attr _dev ;;
  c <- global "LCD_SETGRAPHICHOMEADDRESS" ;;
  parallel.writecommand so dev c ;;
  x <- attr _pixx ;;
  let temp := c_uint16_le_array 1 [x / 8] in
  dev <- attr _dev ;;
  parallel.writedata dev temp 2 ;;
  dev <- attr _dev ;;
  c <- global "LCD_SETGRAPHICAREA" ;;
  parallel.writecommand so dev c ;;
  v <- attr cgaddress ;;
  (if Z.land v 0x07FF >? 0 then
     print cg_warning ;;
     v <- attr cgaddress ;;
     assign (set_cgaddress (Z.land v 0xF800))
   else ret tt) ;;
  v <- attr cgaddress ;;
  let temp := c_uint16_le_array 1 [Z.shiftr v 11] in
  dev <- attr _dev ;;
  parallel.writedata dev temp 2 ;;
  dev <- attr _dev ;;
  c <- global "LCD_SETOFFSETREGISTER" ;;
  parallel.writecommand so dev c ;;
  ret VNone.

Definition cghome : M value :=
  v <- attr cgaddress ;;
  let temp := c_uint16_le_array 1 [v] in
  dev <- attr _dev ;;
  parallel.writedata dev temp 2 ;;
  dev <- attr _dev ;;
  c <- global "LCD_SETADDRESSPOINTER" ;;
  parallel.writecommand so dev c ;;
  v <- attr cgaddress ;;
  ret (VInt v).

Definition cursorblink (blink : bool) : M value :=
  (if blink then
     m <- attr _displaymode ;;
     c <- global "LCD_CURSORBLINK" ;;
     m' <- py_or m c ;;
     assign (set_displaymode m')
   else
     m <- attr _displaymode ;;
     c <- global "LCD_CURSORBLINK" ;;
     m' <- py_and m (Z.lnot c) ;;
     assign (set_displaymode m')) ;;
  dev <- attr _dev ;;
  c <- global "LCD_DISPLAYMODE" ;;
  m <- attr _displaymode ;;
  b <- py_ror c m ;;
  parallel.writecommand so dev b ;;
  ret VNone.

Definition cursordisplay (display : bool) : M value :=
  (if display then
     m <- attr _displaymode ;;
     c <- global "LCD_CURSORON" ;;
     m' <- py_or m c ;;
     assign (set_displaymode m')
   else
     m <- attr _displaymode ;;
     c <- global "LCD_CURSORON" ;;
     m' <- py_and m (Z.lnot c) ;;
     assign (set_displaymode m')) ;;
  dev <- attr _dev ;;
  c <- global "LCD_DISPLAYMODE" ;;
  m <- attr _displaymode ;;
  b <- py_ror c m ;;
  parallel.writecommand so dev b ;;
  ret VNone.

Definition cursormove (move : bool) : M value :=
  (if move then
     dev <- attr _dev ;;
     c <- global "LCD_CURSORAUTOMOVING" ;;
     r <- parallel.writecommand so dev (Z.lor c 0x00) ;;
     assign (set_displaymode r)
   else
     dev <- attr _dev ;;
     c <- global "LCD_CURSORAUTOMOVING" ;;
     r <- parallel.writecommand so dev (Z.lor c 0x01) ;;
     assign (set_displaymode r)) ;;
  ret VNone.

Definition setaddress (v : Z) : M value :=
  let temp := c_uint16_le_array 1 [v] in
  dev <- attr _dev ;;
  parallel.writedata dev temp 2 ;;
  dev <- attr _dev ;;
  c <- global "LCD_SETADDRESSPOINTER" ;;
  parallel.writecommand so dev c ;;
  ret VNone.

Definition definechars (chars : list Z) (location : Z) : M value :=
  v <- attr cgaddress ;;
  setaddress (v + 128 * 8 + location * 8) ;;
  dev <- attr _dev ;;
  c <- global "LCD_SETDATAAUTOWRITE" ;;
  parallel.writecommand so dev c ;;
  for_each chars (fun i =>
    let temp := c_uint64_be_array1 i in
    dev <- attr _dev ;;
    parallel.writedata dev temp 8) ;;
  dev <- attr _dev ;;
  c <- global "LCD_AUTORESET" ;;
  parallel.writecommand so dev c ;;
  ret VNone.

Definition displaymode (text graphic : bool) : M value :=
  (if text then
     m <- attr _displaymode ;;
     c <- global "LCD_TEXTON" ;;
     m' <- py_or m c ;;
     assign (set_displaymode m')
   else
     m <- attr _displaymode ;;
     c <- global "LCD_TEXTON" ;;
     m' <- py_and m (Z.lnot c) ;;
     assign (set_displaymode m')) ;;
  (if graphic then
     m <- attr _displaymode ;;
     c <- global "LCD_GRAPHICON" ;;
     m' <- py_or m c ;;
     assign (set_displaymode m')
   else
     m <- attr _displaymode ;;
     c <- global "LCD_GRAPHICON" ;;
     m' <- py_and m (Z.lnot c) ;;
     assign (set_displaymode m')) ;;
  dev <- attr _dev ;;
  c <- global "LCD_DISPLAYMODE" ;;
  m <- attr _displaymode ;;
  b <- py_ror c m ;;
  parallel.writecommand so dev b ;;
  ret VNone.

Definition externalcg (bool : bool) : M value :=
  (if bool then
     m <- attr _modeset ;;
     c <- global "LCD_EXTERNALCGROM" ;;
     m' <- py_or m c ;;
     assign (set_modeset m')
   else
     m <- attr _modeset ;;
     c <- global "LCD_EXTERNALCGROM" ;;
     m' <- py_and m (Z.lnot c) ;;
     assign (set_modeset m')) ;;
  dev <- attr _dev ;;
  c <- global "LCD_MODESET" ;;
  m <- attr _modeset ;;
  b <- py_ror c m ;;
  parallel.writecommand so dev b ;;
  ret VNone.

Definition graphichome : M value :=
  v <- attr graphicaddress ;;
  let temp := c_uint16_le_array 1 [v] in
  dev <- attr _dev ;;
  parallel.writedata dev temp 2 ;;
  dev <- attr _dev ;;
  c <- global "LCD_SETADDRESSPOINTER" ;;
  parallel.writecommand so dev c ;;
  v <- attr graphicaddress ;;
  ret (VInt v).

(** [if mode==k: self._modeset = self._modeset | NAME]. *)
Definition modeset_case (mode k : Z) (name : string) : M unit :=
  if mode =? k then
    m <- attr _modeset ;;
    c <- global name ;;
    m' <- py_or m c ;;
    assign (set_modeset m')
  else ret tt.

Definition modeset (mode : Z) : M value :=
  m <- attr _modeset ;;
  c1 <- global "LCD_OR" ;;
  c2 <- global "LCD_EXOR" ;;
  c3 <- global "LCD_AND" ;;
  c4 <- global "LCD_TEXTATTRIBUTE" ;;
  m' <- py_and m (Z.lnot (Z.lor (Z.lor (Z.lor c1 c2) c3) c4)) ;;
  assign (set_modeset m') ;;
  modeset_case mode 1 "LCD_OR" ;;
  modeset_case mode 2 "LCD_EXOR" ;;
  modeset_case mode 3 "LCD_AND" ;;
  modeset_case mode 4 "LCD_TEXTATTRIBUTE" ;;
  dev <- attr _dev ;;
  c <- global "LCD_MODESET" ;;
  m <- attr _modeset ;;
  b <- py_ror c m ;;
  parallel.writecommand so dev b ;;
  ret VNone.

(** The caller's buffer is changed in place; the model hands its new
    contents back beside the [None] the method returns. *)
Definition readdata (datapos : list Z) (datanum : Z) : M (value * list Z) :=
  dev <- attr _dev ;;
  c <- global "LCD_SETDATAAUTOREAD" ;;
  parallel.writecommand so dev c ;;
  dev <- attr _dev ;;
  after <- parallel.readdata so dev datapos datanum ;;
  dev <- attr _dev ;;
  c <- global "LCD_AUTORESET" ;;
  parallel.writecommand so dev c ;;
  ret (VNone, after).

Definition readdecrement : M value :=
  let temp := c_uint8_array1 None in
  dev <- attr _dev ;;
  c <- global "LCD_DATAREADDECREMENT" ;;
  parallel.writecommand so dev c ;;
  dev <- attr _dev ;;
  temp <- parallel.readdata so dev temp 1 ;;
  v <- getitem temp 0 ;;
  ret (VInt v).

Definition readincrement : M value :=
  let temp := c_uint8_array1 None in
  dev <- attr _dev ;;
  c <- global "LCD_DATAREADINCREMENT" ;;
  parallel.writecommand so dev c ;;
  dev <- attr _dev ;;
  temp <- parallel.readdata so dev temp 1 ;;
  v <- getitem temp 0 ;;
  ret (VInt v).

Definition readstatus : M value :=
  dev <- attr _dev ;;
  temp <- parallel.readregister so dev ;;
  ret temp.

Definition readonvariable : M value :=
  let temp := c_uint8_array1 None in
  dev <- attr _dev ;;
  c <- global "LCD_DATAREADNONVARIABLE" ;;
  parallel.writecommand so dev c ;;
  dev <- attr _dev ;;
  temp <- parallel.readdata so dev temp 1 ;;
  v <- getitem temp 0 ;;
  ret (VInt v).

Definition setcursor (xaddr yaddr : Z) : M value :=
  let temp := c_uint16_le_array 2 [256 * yaddr + xaddr] in
  dev <- attr _dev ;;
  parallel.writedata dev temp 2 ;;
  dev <- attr _dev ;;
  c <- global "LCD_SETCURSORPOINTER" ;;
  parallel.writecommand so dev c ;;
  ret VNone.

Definition settexthome (v : Z) : M value :=
  assign (set_textaddress v) ;;
  let temp := c_uint16_le_array 1 [v] in
  dev <- attr _dev ;;
  parallel.writedata dev temp 2 ;;
  dev <- attr _dev ;;
  c <- global "LCD_SETTEXTHOMEADDRESS" ;;
  parallel.writecommand so dev c ;;
  ret VNone.

Definition setgraphichome (v : Z) : M value :=
  assign (set_graphicaddress v) ;;
  let temp := c_uint16_le_array 1 [v] in
  dev <- attr _dev ;;
  parallel.writedata dev temp 2 ;;
  dev <- attr _dev ;;
  c <- global "LCD_SETGRAPHICHOMEADDRESS" ;;
  parallel.writecommand so dev c ;;
  ret VNone.

Definition texthome : M value :=
  v <- attr textaddress ;;
  let temp := c_uint16_le_array 1 [v] in
  dev <- attr _dev ;;
  parallel.writedata dev temp 2 ;;
  dev <- attr _dev ;;
  c <- global "LCD_SETADDRESSPOINTER" ;;
  parallel.writecommand so dev c ;;
  v <- attr textaddress ;;
  ret (VInt v).

Definition writedecrement (v : Z) : M value :=
  let temp := c_uint8_array1 (Some v) in
  dev <- attr _dev ;;
  parallel.writedata dev temp 1 ;;
  dev <- attr _dev ;;
  c <- global "LCD_DATAWRITEDECREMENT" ;;
  parallel.writecommand so dev c ;;
  ret VNone.

Definition writeincrement (v : Z) : M value :=
  let temp := c_uint8_array1 (Some v) in
  dev <- attr _dev ;;
  parallel.writedata dev temp 1 ;;
  dev <- attr _dev ;;
  c <- global "LCD_DATAWRITEINCREMENT" ;;
  parallel.writecommand so dev c ;;
  ret VNone.

Definition writeonvariable (v : Z) : M value :=
  let temp := c_uint8_array1 (Some v) in
  dev <- attr _dev ;;
  parallel.writedata dev temp 1 ;;
  dev <- attr _dev ;;
  c <- global "LCD_DATAWRITENONVARIABLE" ;;
  parallel.writecommand so dev c ;;
  ret VNone.

Definition bitreset (num : Z) : M value :=
  dev <- attr _dev ;;
  c <- global "LCD_BITRESET" ;;
  parallel.writecommand so dev (Z.lor c num) ;;
  ret VNone.

Definition bitset (num : Z) : M value :=
  dev <- attr _dev ;;
  c <- global "LCD_BITSET" ;;
  parallel.writecommand so dev (Z.lor c num) ;;
  ret VNone.

Definition blinktime (num : Z) : M value :=
  let temp := c_uint16_le_array 1 [num] in
  dev <- attr _dev ;;
  parallel.writedata dev temp 2 ;;
  dev <- attr _dev ;;
  c <- global "LCD_BLINKTIME" ;;
  parallel.writecommand so dev c ;;
  ret VNone.

Definition cgromfont (num : Z) : M value :=
  let temp := if num =? 1 then c_uint16_le_array 1 [0x0002]
              else c_uint16_le_array 1 [0x0003] in
  dev <- attr _dev ;;
  parallel.writedata dev temp 2 ;;
  dev <- attr _dev ;;
  c <- global "LCD_CGROMFONTSELECT" ;;
  parallel.writecommand so dev c ;;
  ret VNone.

Definition cursorpattern (patt : Z) : M value :=
  dev <- attr _dev ;;
  c <- global "LCD_CURSORPATTERNSELECT" ;;
  parallel.writecommand so dev (Z.lor c patt) ;;
  ret VNone.

Definition screencopy : M value :=
  dev <- attr _dev ;;
  c <- global "LCD_SCREENCOPY" ;;
  parallel.writecommand so dev c ;;
  ret VNone.

Definition screenpeek : M value :=
  let temp := c_uint8_array1 None in
  dev <- attr _dev ;;
  c <- global "LCD_SCREENPEEK" ;;
  parallel.writecommand so dev c ;;
  dev <- attr _dev ;;
  temp <- parallel.readdata so dev temp 1 ;;
  v <- getitem temp 0 ;;
  ret (VInt v).

Definition writedata (datapos : list Z) (datanum : Z) : M value :=
  dev <- attr _dev ;;
  c <- global "LCD_SETDATAAUTOWRITE" ;;
  parallel.writecommand so dev c ;;
  dev <- attr _dev ;;
  parallel.writedata dev datapos datanum ;;
  dev <- attr _dev ;;
  c <- global "LCD_AUTORESET" ;;
  parallel.writecommand so dev c ;;
  ret VNone.

End Methods.
End RA6963.

(** ** Vocabulary of the statements *)

(** The number a sequence of bytes stands for, least significant byte
    first and most significant byte first. *)
Fixpoint le_value (l : list Z) : Z :=
  match l with
  | [] => 0
  | b :: rest => b + 256 * le_value rest
  end.
Definition be_value (l : list Z) : Z := le_value (rev l).

(** The events a computation adds to the trace. *)
Definition emitted {A} (m : M A) (s : State) : list Event :=
  skipn (List.length (trace s)) (trace (snd (m s))).

(** The texts printed among some events. *)
Fixpoint printed (evs : list Event) : list string :=
  match evs with
  | [] => []
  | Print text :: rest => text :: printed rest
  | _ :: rest => printed rest
  end.

(** The reset pulse and the five settings [startup] sends. *)
Definition startup_events (i : Instance) (t g c : Z) (warn : bool) : list Event :=
  [ GpioWrite (c_uint (_rst i)) 0;
    GpioWrite (c_uint (_rst i)) 1;
    WriteData (_dev i) (le_bytes 2 (c_uint16 t));
    WriteCommand (_dev i) 0x40;
    WriteData (_dev i) (le_bytes 2 (c_uint16 (_pixx i / 8)));
    WriteCommand (_dev i) 0x41;
    WriteData (_dev i) (le_bytes 2 (c_uint16 g));
    WriteCommand (_dev i) 0x42;
    WriteData (_dev i) (le_bytes 2 (c_uint16 (_pixx i / 8)));
    WriteCommand (_dev i) 0x43 ]
  ++ (if warn then [Print RA6963.cg_warning] else [])
  ++ [ WriteData (_dev i) (le_bytes 2 (c_uint16 (Z.shiftr c 11)));
       WriteCommand (_dev i) 0x22 ].

(** The address [startup] keeps for the character generator. *)
Definition rounded (c : Z) : Z :=
  if c mod 0x0800 =? 0 then c else Z.land c 0xF800.

(** A concrete display: 240 by 128 pixels, no RD line, no custom
    addresses, as [RA6963(240, 128, 5, 6, 13, 19, 26, 16, 20, 21, 4,
    17, 27)] leaves it. *)
Definition lcd0 : Instance :=
  mkInstance 240 128 4 None (VInt 0) (VInt 0)
    (initialise 5 6 13 19 26 16 20 21 17 27 (-1) 8080 20 2000 300 1000 2000)
    0x0000 0x1000 0x7800.

(** A library whose calls all leave 0 and whose reads store nothing. *)
Definition quiet : Library :=
  mkLibrary (fun _ _ _ => 0) (fun _ _ => 0) (fun _ _ _ _ => None).

(** Character [n] of the generator occupies the eight bytes from
    [cgaddress + n * 8] on: the layout [definechars] computes with. *)
Definition char_address (cg n : Z) : Z := cg + n * 8.

(** Setting or clearing the flag [k] in the byte [d]. *)
Definition set_flag (d k : Z) (on : bool) : Z :=
  if on then Z.lor d k else Z.land d (Z.lnot k).

(** A call of one of the methods above, with its arguments. *)
Inductive Call : Type :=
| Startup
| Cghome
| Cursorblink (blink : bool)
| Cursordisplay (display : bool)
| Cursormove (move : bool)
| Setaddress (v : Z)
| Definechars (chars : list Z) (location : Z)
| Displaymode (text graphic : bool)
| Externalcg (on : bool)
| Graphichome
| Modeset (mode : Z)
| Readdata (datapos : list Z) (datanum : Z)
| Readdecrement
| Readincrement
| Readstatus
| Readonvariable
| Setcursor (xaddr yaddr : Z)
| Settexthome (v : Z)
| Setgraphichome (v : Z)
| Texthome
| Writedecrement (v : Z)
| Writeincrement (v : Z)
| Writeonvariable (v : Z)
| Bitreset (num : Z)
| Bitset (num : Z)
| Blinktime (num : Z)
| Cgromfont (num : Z)
| Cursorpattern (patt : Z)
| Screencopy
| Screenpeek
| Writedata (datapos : list Z) (datanum : Z).

Definition invoke (so : Library) (c : Call) : M value :=
  match c with
  | Startup => RA6963.startup so
  | Cghome => RA6963.cghome so
  | Cursorblink b => RA6963.cursorblink so b
  | Cursordisplay b => RA6963.cursordisplay so b
  | Cursormove b => RA6963.cursormove so b
  | Setaddress v => RA6963.setaddress so v
  | Definechars chars location => RA6963.definechars so chars location
  | Displaymode t g => RA6963.displaymode so t g
  | Externalcg b => RA6963.externalcg so b
  | Graphichome => RA6963.graphichome so
  | Modeset mode => RA6963.modeset so mode
  | Readdata datapos datanum =>
      r <- RA6963.readdata so datapos datanum ;; ret (fst r)
  | Readdecrement => RA6963.readdecrement so
  | Readincrement => RA6963.readincrement so
  | Readstatus => RA6963.readstatus so
  | Readonvariable => RA6963.readonvariable so
  | Setcursor x y => RA6963.setcursor so x y
  | Settexthome v => RA6963.settexthome so v
  | Setgraphichome v => RA6963.setgraphichome so v
  | Texthome => RA6963.texthome so
  | Writedecrement v => RA6963.writedecrement so v
  | Writeincrement v => RA6963.writeincrement so v
  | Writeonvariable v => RA6963.writeonvariable so v
  | Bitreset num => RA6963.bitreset so num
  | Bitset num => RA6963.bitset so num
  | Blinktime num => RA6963.blinktime so num
  | Cgromfont num => RA6963.cgromfont so num
  | Cursorpattern patt => RA6963.cursorpattern so patt
  | Screencopy => RA6963.screencopy so
  | Screenpeek => RA6963.screenpeek so
  | Writedata datapos datanum => RA6963.writedata so datapos datanum
  end.



(** The bytes handed to [writedata], call after call. *)
Fixpoint payload (evs : list Event) : list Z :=
  match evs with
  | [] => []
  | WriteData _ data :: rest => data ++ payload rest
  | _ :: rest => payload rest
  end.

(** The opcodes sent with [writecommand]. *)
Fixpoint commands (evs : list Event) : list Z :=
  match evs with
  | [] => []
  | WriteCommand _ datacom :: rest => datacom :: commands rest
  | _ :: rest => commands rest
  end.

(** The names the module binds to command opcodes. *)
Definition command_names : list string :=
  [ "LCD_SETCURSORPOINTER"; "LCD_SETOFFSETREGISTER"; "LCD_SETADDRESSPOINTER";
    "LCD_SETTEXTHOMEADDRESS"; "LCD_SETTEXTAREA"; "LCD_SETGRAPHICHOMEADDRESS";
    "LCD_SETGRAPHICAREA"; "LCD_MODESET"; "LCD_DISPLAYMODE";
    "LCD_CURSORPATTERNSELECT"; "LCD_DATAWRITEINCREMENT"; "LCD_DATAREADINCREMENT";
    "LCD_DATAWRITEDECREMENT"; "LCD_DATAEREADDECREMENT"; "LCD_DATAWRITENONVARIABLE";
    "LCD_DATAREADNONVARIABLE"; "LCD_SETDATAAUTOWRITE"; "LCD_SETDATAAUTOREAD";
    "LCD_AUTORESET"; "LCD_SCREENPEEK"; "LCD_SCREENCOPY"; "LCD_BITRESET";
    "LCD_BITSET"; "LCD_SCREENREVERSE"; "LCD_BLINKTIME"; "LCD_CURSORAUTOMOVING";
    "LCD_CGROMFONTSELECT" ].

(** The pairs of different names among [names] bound to the same
    number. *)
Definition same_opcode (names : list string) : list (string * string) :=
  filter (fun p =>
            negb (String.eqb (fst p) (snd p)) &&
            match lookup (fst p) module_globals, lookup (snd p) module_globals with
            | Some a, Some b => a =? b
            | _, _ => false
            end)
         (list_prod names names).

(** ** Byte order *)

Lemma land_255 v : Z.land v 0xFF = v mod 256.
Proof. change 0xFF with (Z.ones 8). now rewrite Z.land_ones by lia. Qed.

Lemma le_value_le_bytes n v : le_value (le_bytes n v) = v mod 2 ^ (8 * Z.of_nat n).
Proof.
  revert v; induction n as [|n IH]; intros v.
  - cbn. now rewrite Z.mod_1_r.
  - cbn [le_bytes le_value]. rewrite IH, land_255, Z.shiftr_div_pow2 by lia.
    replace (8 * Z.of_nat (S n)) with (8 + 8 * Z.of_nat n) by lia.
    rewrite Z.pow_add_r by lia.
    change (2 ^ 8) with 256.
    now rewrite Z.rem_mul_r by lia.
Qed.

Lemma le_bytes_length n v : List.length (le_bytes n v) = n.
Proof. revert v; induction n as [|n IH]; intros v; cbn; [reflexivity | now rewrite IH]. Qed.

Lemma le_bytes_range n v : Forall (fun b => 0 <= b < 256) (le_bytes n v).
Proof.
  revert v; induction n as [|n IH]; intros v; cbn [le_bytes]; constructor; [|apply IH].
  rewrite land_255. apply Z.mod_pos_bound; lia.
Qed.

Lemma be_value_be_bytes n v : be_value (be_bytes n v) = v mod 2 ^ (8 * Z.of_nat n).
Proof. unfold be_value, be_bytes. rewrite rev_involutive. apply le_value_le_bytes. Qed.

Lemma c_uint16_mod v : c_uint16 v = v mod 65536.
Proof. unfold c_uint16. change 0xFFFF with (Z.ones 16). now rewrite Z.land_ones by lia. Qed.

Lemma c_uint64_mod v : c_uint64 v = v mod 2 ^ 64.
Proof.
  unfold c_uint64. change 0xFFFFFFFFFFFFFFFF with (Z.ones 64).
  now rewrite Z.land_ones by lia.
Qed.

(** A little-endian 16-bit word in memory: low byte, then high byte. *)
Lemma word16 v :
  le_bytes 2 (c_uint16 v) = [(v mod 65536) mod 256; (v mod 65536) / 256].
Proof.
  rewrite c_uint16_mod.
  cbn [le_bytes]. rewrite !land_255, Z.shiftr_div_pow2 by lia. change (2 ^ 8) with 256.
  f_equal. f_equal. apply Z.mod_small.
  pose proof (Z.mod_pos_bound v 65536 ltac:(lia)).
  split; [apply Z.div_pos; lia | apply Z.div_lt_upper_bound; lia].
Qed.

(** The test [startup] makes on the character-generator address is
    the test for a multiple of 0x0800. *)
Lemma misaligned_test c : (Z.land c 0x07FF >? 0) = negb (c mod 0x0800 =? 0).
Proof.
  change 0x07FF with (Z.ones 11). rewrite Z.land_ones by lia. change (2 ^ 11) with 2048.
  pose proof (Z.mod_pos_bound c 2048 ltac:(lia)).
  destruct (Z.eqb_spec (c mod 2048) 0) as [E|E]; cbn; [now rewrite E|].
  apply Z.gtb_lt. lia.
Qed.

(** ** Running the methods *)

Lemma emitted_app {A} (m : M A) s evs :
  trace (snd (m s)) = trace s ++ evs -> emitted m s = evs.
Proof.
  unfold emitted. intros ->.
  rewrite skipn_app, skipn_all, Nat.sub_diag. reflexivity.
Qed.

(** Unfolds the monad, the attribute accesses, the global look-ups and
    the ctypes calls, and leaves the integer arithmetic alone. *)
Ltac run :=
  cbv [RA6963.startup RA6963.cghome RA6963.cursorblink RA6963.cursordisplay
       RA6963.cursormove RA6963.setaddress RA6963.definechars
       RA6963.displaymode RA6963.externalcg RA6963.graphichome
       RA6963.modeset_case RA6963.modeset RA6963.readdata
       RA6963.readdecrement RA6963.readincrement RA6963.readstatus
       RA6963.readonvariable RA6963.setcursor RA6963.settexthome
       RA6963.setgraphichome RA6963.texthome RA6963.writedecrement
       RA6963.writeincrement RA6963.writeonvariable RA6963.print
       parallel.gpioWrite parallel.writecommand parallel.writedata
       parallel.readdata parallel.readregister parallel.stored
       bind ret raise attr assign emit history global lookup module_globals
       getitem nth_error String.eqb Ascii.eqb Bool.eqb
       py_or py_and py_ror fst snd
       c_uint16_le_array c_uint8_array1 c_uint64_be_array1
       self trace set_textaddress set_graphicaddress set_cgaddress
       set_displaymode set_modeset set_addr
       _pixx _pixy _rst addr _displaymode _modeset _dev
       textaddress graphicaddress cgaddress];
  change (Z.to_nat (c_int 1)) with 1%nat;
  change (Z.to_nat (c_int 2)) with 2%nat;
  change (Z.to_nat (c_int 8)) with 8%nat;
  change (c_int 1) with 1;
  change (c_uint 0) with 0;
  change (c_uint 1) with 1;
  repeat match goal with
         | |- context [c_ubyte (Zpos ?p)] =>
             let v := eval vm_compute in (c_ubyte (Zpos p)) in
             change (c_ubyte (Zpos p)) with v
         end;
  cbn [app firstn le_bytes];
  rewrite <- ?app_assoc; cbn [app].

(** Masking with 0xF800 keeps bits 11 to 15: the multiple of 0x0800
    at or below the low sixteen bits of the address. *)
Lemma land_F800 c : Z.land c 0xF800 = 0x0800 * ((c / 0x0800) mod 32).
Proof.
  change 0xF800 with (Z.shiftl (Z.ones 5) 11).
  change 0x0800 with (2 ^ 11). change 32 with (2 ^ 5).
  rewrite Z.mul_comm, <- Z.shiftl_mul_pow2, <- Z.shiftr_div_pow2, <- Z.land_ones by lia.
  apply Z.bits_inj'; intros n Hn.
  rewrite Z.land_spec, !Z.shiftl_spec by lia.
  destruct (Z.ltb_spec n 11).
  - rewrite !(Z.testbit_neg_r _ (n - 11)) by lia. apply andb_false_r.
  - rewrite Z.land_spec, Z.shiftr_spec by lia.
    now replace (n - 11 + 11) with n by lia.
Qed.

(** What one call of [startup] does, for each shape [addr] can have. *)
Lemma startup_run so i tr :
  RA6963.startup so (mkState i tr) =
  match addr i with
  | None =>
      (Return VNone,
       mkState (set_cgaddress 0x7800 (set_graphicaddress 0x1000 (set_textaddress 0 i)))
               (tr ++ startup_events i 0 0x1000 0x7800 false))
  | Some (t :: g :: c :: _) =>
      (Return VNone,
       mkState (set_cgaddress (rounded c) (set_graphicaddress g (set_textaddress t i)))
               (tr ++ startup_events i t g (rounded c) (negb (c mod 0x0800 =? 0))))
  | Some [t; g] =>
      (Raise IndexError,
       mkState (set_graphicaddress g (set_textaddress t i))
               (tr ++ [GpioWrite (c_uint (_rst i)) 0; GpioWrite (c_uint (_rst i)) 1]))
  | Some [t] =>
      (Raise IndexError,
       mkState (set_textaddress t i)
               (tr ++ [GpioWrite (c_uint (_rst i)) 0; GpioWrite (c_uint (_rst i)) 1]))
  | Some [] =>
      (Raise IndexError,
       mkState i (tr ++ [GpioWrite (c_uint (_rst i)) 0; GpioWrite (c_uint (_rst i)) 1]))
  end.
Proof.
  destruct i as [px py rst a dm ms dev ta ga ca].
  destruct a as [[|t [|g [|c rest]]]|]; unfold startup_events, rounded; run;
    try reflexivity.
  - rewrite misaligned_test.
    destruct (c mod 0x0800 =? 0); cbn [negb]; run; reflexivity.
  - change (Z.land 0x7800 0x07FF >? 0) with false. run. reflexivity.
Qed.

(** ** The character-generator address *)

(** C1.  Whatever character-generator address the instance was
    configured with, [startup] keeps it unchanged and prints nothing
    when it is a multiple of 0x0800, and otherwise replaces it by
    [address & 0xF800] and prints the warning; the last thing sent is
    the kept address shifted right by 11, as a little-endian 16-bit
    word (low byte, high byte), followed by the set-offset-register
    opcode 0x22.  With 0x1003 the address kept is 0x1000 and the
    warning is printed; with 0x1800 it is 0x1800 and nothing is
    printed. *)
Theorem startup_rounds_cg_address so i tr t g c rest :
  let configure c := mkState (set_addr (Some (t :: g :: c :: rest)) i) tr in
  let stored := if c mod 0x0800 =? 0 then c else Z.land c 0xF800 in
  let word := Z.shiftr stored 11 in
  (exists evs,
     RA6963.startup so (configure c) =
       (Return VNone,
        mkState (set_cgaddress stored (set_graphicaddress g (set_textaddress t
                   (set_addr (Some (t :: g :: c :: rest)) i))))
                (tr ++ evs ++
                 [ WriteData (_dev i) [(word mod 65536) mod 256; (word mod 65536) / 256];
                   WriteCommand (_dev i) 0x22 ]))
     /\ printed evs = if c mod 0x0800 =? 0 then [] else [RA6963.cg_warning])
  /\ Z.land c 0xF800 = 0x0800 * ((c / 0x0800) mod 32)
  /\ cgaddress (self (snd (RA6963.startup so (configure 0x1003)))) = 0x1000
  /\ printed (emitted (RA6963.startup so) (configure 0x1003)) = [RA6963.cg_warning]
  /\ cgaddress (self (snd (RA6963.startup so (configure 0x1800)))) = 0x1800
  /\ printed (emitted (RA6963.startup so) (configure 0x1800)) = [].
Proof.
  intros configure stored word.
  assert (R : forall c', RA6963.startup so (configure c') =
            (Return VNone,
             mkState (set_cgaddress (rounded c') (set_graphicaddress g (set_textaddress t
                        (set_addr (Some (t :: g :: c' :: rest)) i))))
                     (tr ++ startup_events (set_addr (Some (t :: g :: c' :: rest)) i)
                             t g (rounded c') (negb (c' mod 0x0800 =? 0))))).
  { intros c'. unfold configure. rewrite startup_run. reflexivity. }
  split; [|split; [apply land_F800|]].
  - rewrite R. unfold startup_events.
    rewrite (word16 (Z.shiftr (rounded c) 11)).
    eexists (_ ++ (if negb (c mod 0x0800 =? 0) then [Print RA6963.cg_warning] else [])).
    split.
    + rewrite <- app_assoc. reflexivity.
    + destruct (c mod 0x0800 =? 0); reflexivity.
  - split; [|split; [|split]].
    + rewrite R. reflexivity.
    + erewrite emitted_app by (rewrite R; reflexivity). reflexivity.
    + rewrite R. reflexivity.
    + erewrite emitted_app by (rewrite R; reflexivity). reflexivity.
Qed.

(** ** What [startup] sends *)

Lemma settexthome_run so i tr v :
  RA6963.settexthome so v (mkState i tr) =
  (Return VNone,
   mkState (set_textaddress v i)
           (tr ++ [WriteData (_dev i) (le_bytes 2 (c_uint16 v));
                   WriteCommand (_dev i) 0x40])).
Proof. destruct i. run. reflexivity. Qed.

Lemma setgraphichome_run so i tr v :
  RA6963.setgraphichome so v (mkState i tr) =
  (Return VNone,
   mkState (set_graphicaddress v i)
           (tr ++ [WriteData (_dev i) (le_bytes 2 (c_uint16 v));
                   WriteCommand (_dev i) 0x42])).
Proof. destruct i. run. reflexivity. Qed.

(** C4, as the code has it.  [startup] does not send the addresses the
    instance currently holds: it first sets them again from [addr], the
    addresses given at construction, or to 0x0000, 0x1000 and 0x7800
    when none were given, and sends those, each followed by its opcode,
    with the width [_pixx // 8] for both areas.  So after
    [settexthome(v)] and [setgraphichome(w)] the next [startup] puts
    the configured text and graphic addresses back and sends them,
    whatever [v] and [w] were.  With fewer than three configured
    addresses it raises [IndexError] after the reset pulse. *)
Theorem startup_sends_configured_addresses so i tr v w :
  let s1 := snd (RA6963.setgraphichome so w
                   (snd (RA6963.settexthome so v (mkState i tr)))) in
  let s2 := snd (RA6963.startup so s1) in
  textaddress (self s1) = v /\ graphicaddress (self s1) = w /\
  match addr i with
  | None =>
      fst (RA6963.startup so s1) = Return VNone /\
      emitted (RA6963.startup so) s1 = startup_events i 0x0000 0x1000 0x7800 false /\
      textaddress (self s2) = 0x0000 /\ graphicaddress (self s2) = 0x1000 /\
      cgaddress (self s2) = 0x7800
  | Some (t :: g :: c :: _) =>
      fst (RA6963.startup so s1) = Return VNone /\
      emitted (RA6963.startup so) s1 =
        startup_events i t g (rounded c) (negb (c mod 0x0800 =? 0)) /\
      textaddress (self s2) = t /\ graphicaddress (self s2) = g /\
      cgaddress (self s2) = rounded c
  | Some _ =>
      fst (RA6963.startup so s1) = Raise IndexError /\
      emitted (RA6963.startup so) s1 =
        [GpioWrite (c_uint (_rst i)) 0; GpioWrite (c_uint (_rst i)) 1]
  end.
Proof.
  destruct i as [px py rst a dm ms dev ta ga ca].
  cbv zeta. rewrite settexthome_run. cbn [snd].
  rewrite setgraphichome_run. cbn [snd].
  split; [reflexivity|]. split; [reflexivity|].
  destruct a as [[|t [|g [|c rest]]]|]; cbn [addr];
    repeat match goal with
           | |- _ /\ _ => split
           | |- emitted _ _ = _ =>
               apply emitted_app; rewrite startup_run; reflexivity
           | |- _ => rewrite startup_run; reflexivity
           end.
Qed.

(** At [lcd0], which was given no addresses, [settexthome(0x0200)]
    followed by [startup] sends the text home address 0x0000 and never
    0x0200, and leaves 0x0000 stored. *)
Lemma startup_forgets_settexthome :
  let s1 := snd (RA6963.settexthome quiet 0x0200 (mkState lcd0 [])) in
  let dev := _dev lcd0 in
  textaddress (self s1) = 0x0200 /\
  emitted (RA6963.startup quiet) s1 =
    [ GpioWrite 4 0; GpioWrite 4 1;
      WriteData dev [0x00; 0x00]; WriteCommand dev 0x40;
      WriteData dev [30; 0x00]; WriteCommand dev 0x41;
      WriteData dev [0x00; 0x10]; WriteCommand dev 0x42;
      WriteData dev [30; 0x00]; WriteCommand dev 0x43;
      WriteData dev [15; 0x00]; WriteCommand dev 0x22 ] /\
  ~ In (WriteData dev [0x00; 0x02]) (emitted (RA6963.startup quiet) s1) /\
  textaddress (self (snd (RA6963.startup quiet s1))) = 0x0000.
Proof.
  cbv zeta.
  split; [reflexivity|]. split; [vm_compute; reflexivity|].
  split; [|vm_compute; reflexivity].
  vm_compute. intros H.
  repeat (destruct H as [H|H]; [discriminate H|]). exact H.
Qed.

(** ** Calling [startup] again *)

(** C5.  A second [startup] right after a first one leaves the stored
    text, graphic and character-generator addresses as the first one
    left them; the whole instance is the same, and the second call
    ends the way the first did. *)
Theorem startup_twice so s :
  let s1 := snd (RA6963.startup so s) in
  let s2 := snd (RA6963.startup so s1) in
  textaddress (self s2) = textaddress (self s1) /\
  graphicaddress (self s2) = graphicaddress (self s1) /\
  cgaddress (self s2) = cgaddress (self s1) /\
  self s2 = self s1 /\
  fst (RA6963.startup so s1) = fst (RA6963.startup so s).
Proof.
  destruct s as [[px py rst a dm ms dev ta ga ca] tr].
  cbv zeta. rewrite startup_run.
  destruct a as [[|t [|g [|c rest]]]|];
    cbn [addr snd fst]; rewrite startup_run; repeat split.
Qed.

(** ** Single bytes *)

Lemma c_ubyte_range v : 0 <= c_ubyte v < 256.
Proof. unfold c_ubyte. rewrite land_255. apply Z.mod_pos_bound; lia. Qed.

(** C3.  [writeincrement], [writedecrement] and [writeonvariable] first
    hand the one data byte to [writedata] and then send their opcode
    (0xC0, 0xC2, 0xC4) with [writecommand]; [readincrement] and
    [readonvariable] first send their opcode (0xC1, 0xC4) and then
    make one [readdata] call for one byte, and return the byte that
    call left in the buffer.  None of them changes the instance. *)
Theorem single_byte_transfers so i tr v :
  let s := mkState i tr in
  let dev := _dev i in
  RA6963.writeincrement so v s =
    (Return VNone, mkState i (tr ++ [WriteData dev [v mod 256]; WriteCommand dev 0xC0])) /\
  RA6963.writedecrement so v s =
    (Return VNone, mkState i (tr ++ [WriteData dev [v mod 256]; WriteCommand dev 0xC2])) /\
  RA6963.writeonvariable so v s =
    (Return VNone, mkState i (tr ++ [WriteData dev [v mod 256]; WriteCommand dev 0xC4])) /\
  (exists b, 0 <= b < 256 /\
     RA6963.readincrement so s =
       (Return (VInt b),
        mkState i (tr ++ [WriteCommand dev 0xC1; ReadData dev 1 [b]]))) /\
  (exists b, 0 <= b < 256 /\
     RA6963.readonvariable so s =
       (Return (VInt b),
        mkState i (tr ++ [WriteCommand dev 0xC4; ReadData dev 1 [b]]))).
Proof.
  destruct i as [px py rst a dm ms dev ta ga ca]. cbv zeta.
  rewrite <- land_255.
  repeat match goal with |- _ /\ _ => split end;
    try (run; reflexivity).
  - run.
    match goal with
    | |- context [readdata_store ?l ?h ?d ?n ?k] =>
        destruct (readdata_store l h d n k) as [x|]
    end; eexists; (split; [|reflexivity]); [apply c_ubyte_range | lia].
  - run.
    match goal with
    | |- context [readdata_store ?l ?h ?d ?n ?k] =>
        destruct (readdata_store l h d n k) as [x|]
    end; eexists; (split; [|reflexivity]); [apply c_ubyte_range | lia].
Qed.

(** ** The cursor pointer *)

(** C10.  For all integers [xaddr] and [yaddr], [setcursor] hands
    [writedata] exactly two bytes, the low and the high byte of
    [(256 * yaddr + xaddr) mod 65536], then sends the opcode 0x21, and
    leaves the instance as it was. *)
Theorem setcursor_sends_truncated_word so i tr xaddr yaddr :
  let word := (256 * yaddr + xaddr) mod 65536 in
  RA6963.setcursor so xaddr yaddr (mkState i tr) =
    (Return VNone,
     mkState i (tr ++ [ WriteData (_dev i) [word mod 256; word / 256];
                        WriteCommand (_dev i) 0x21 ]))
  /\ le_value [word mod 256; word / 256] = word
  /\ 0 <= word < 65536.
Proof.
  cbv zeta. split; [|split].
  - rewrite <- word16. destruct i. run. reflexivity.
  - cbn [le_value].
    pose proof (Z.div_mod ((256 * yaddr + xaddr) mod 65536) 256 ltac:(lia)). lia.
  - apply Z.mod_pos_bound. lia.
Qed.

(** ** A name that is not there *)

(** C8.  The module binds [LCD_DATAEREADDECREMENT] and never
    [LCD_DATAREADDECREMENT], so every call of [readdecrement] raises
    [NameError] for that name while the arguments of its first
    [writecommand] are evaluated: nothing has been sent, no byte is
    returned, and the state is as it was. *)
Theorem readdecrement_raises_NameError so s :
  RA6963.readdecrement so s = (Raise (NameError "LCD_DATAREADDECREMENT"), s)
  /\ lookup "LCD_DATAREADDECREMENT" module_globals = None
  /\ lookup "LCD_DATAEREADDECREMENT" module_globals = Some 0xC2
  /\ emitted (RA6963.readdecrement so) s = [].
Proof.
  assert (E : RA6963.readdecrement so s = (Raise (NameError "LCD_DATAREADDECREMENT"), s)).
  { destruct s as [[px py rst a dm ms dev ta ga ca] tr]. run. reflexivity. }
  repeat split; try exact E.
  apply emitted_app. rewrite E. cbn [snd]. now rewrite app_nil_r.
Qed.

(** ** Custom characters *)

Lemma for_each_emit {A} (l : list A) (f : Instance -> A -> Event)
      (body : A -> M unit) :
  (forall a s, body a s = (Return tt, mkState (self s) (trace s ++ [f (self s) a]))) ->
  forall s,
    for_each l body s = (Return tt, mkState (self s) (trace s ++ map (f (self s)) l)).
Proof.
  intros Hbody. induction l as [|a l IH]; intros s; cbn [for_each map].
  - unfold ret. rewrite app_nil_r. now destruct s.
  - unfold bind. rewrite Hbody, IH. cbn [self trace].
    now rewrite <- app_assoc.
Qed.

(** What [definechars] does, for every list of glyphs and every
    location. *)
Lemma definechars_run so i tr chars location :
  RA6963.definechars so chars location (mkState i tr) =
  (Return VNone,
   mkState i
     (tr ++ [ WriteData (_dev i)
                (le_bytes 2 (c_uint16 (cgaddress i + 128 * 8 + location * 8)));
              WriteCommand (_dev i) 0x24;
              WriteCommand (_dev i) 0xB0 ]
         ++ map (fun g => WriteData (_dev i) (be_bytes 8 (c_uint64 g))) chars
         ++ [ WriteCommand (_dev i) 0xB2 ])).
Proof.
  destruct i as [px py rst a dm ms dev ta ga ca]. run.
  erewrite (for_each_emit chars
              (fun i g => WriteData (_dev i) (be_bytes 8 (c_uint64 g))))
    by (intros g s; reflexivity).
  cbn [self trace _dev]. rewrite <- !app_assoc. reflexivity.
Qed.

Lemma glyph_bytes g :
  List.length (be_bytes 8 (c_uint64 g)) = 8%nat /\
  Forall (fun b => 0 <= b < 256) (be_bytes 8 (c_uint64 g)) /\
  be_value (be_bytes 8 (c_uint64 g)) = g mod 2 ^ 64.
Proof.
  split; [|split].
  - unfold be_bytes. now rewrite length_rev, le_bytes_length.
  - unfold be_bytes. apply Forall_rev, le_bytes_range.
  - rewrite be_value_be_bytes, c_uint64_mod.
    change (8 * Z.of_nat 8) with 64. apply Z.mod_mod. lia.
Qed.

(** C6, as the code has it.  [definechars] sets the address pointer to
    [cgaddress + 128*8 + location*8], sent as a 16-bit little-endian
    word, sends the auto-write opcode 0xB0, hands each glyph to
    [writedata] as exactly eight bytes, most significant first, and
    sends the auto-reset opcode 0xB2.  Nothing guards [location] or
    the 16-bit range, so leaving the first 128 characters alone
    needs both: when the address is not negative, [location] is not
    negative, the target is below 0x10000 and the glyphs end at or
    below 0x10000, the pointer sent is the address of character
    [128 + location] and every byte goes at or above the address of
    character 128. *)
Theorem definechars_writes_from_character_128 so i tr chars location :
  0 <= cgaddress i ->
  0 <= location ->
  char_address (cgaddress i) (128 + location) < 0x10000 ->
  char_address (cgaddress i) (128 + location + Z.of_nat (List.length chars)) <= 0x10000 ->
  let pointer := cgaddress i + 128 * 8 + location * 8 in
  RA6963.definechars so chars location (mkState i tr) =
    (Return VNone,
     mkState i
       (tr ++ [ WriteData (_dev i) [pointer mod 256; pointer / 256];
                WriteCommand (_dev i) 0x24;
                WriteCommand (_dev i) 0xB0 ]
           ++ map (fun g => WriteData (_dev i) (be_bytes 8 (c_uint64 g))) chars
           ++ [ WriteCommand (_dev i) 0xB2 ]))
  /\ le_value [pointer mod 256; pointer / 256] = pointer
  /\ Forall (fun g => List.length (be_bytes 8 (c_uint64 g)) = 8%nat /\
                      be_value (be_bytes 8 (c_uint64 g)) = g mod 2 ^ 64) chars
  /\ pointer = char_address (cgaddress i) (128 + location)
  /\ char_address (cgaddress i) 128 <= pointer
  /\ pointer + 8 * Z.of_nat (List.length chars) <= 0x10000.
Proof.
  intros Hcg Hloc Hfit Hend pointer. unfold char_address in *.
  assert (Hp : 0 <= pointer < 65536) by (unfold pointer; lia).
  split; [|split; [|split; [|split; [|split]]]].
  - rewrite definechars_run, word16. fold pointer.
    now rewrite (Z.mod_small pointer 65536) by exact Hp.
  - cbn [le_value]. pose proof (Z.div_mod pointer 256 ltac:(lia)). lia.
  - apply Forall_forall. intros g _. pose proof (glyph_bytes g). tauto.
  - unfold pointer. lia.
  - unfold pointer. lia.
  - unfold pointer. lia.
Qed.

(** With cgaddress 0x7800 and location 0 the pointer is set to 0x7C00. *)
Lemma definechars_at_7C00 :
  (0 <= cgaddress lcd0 /\ 0 <= 0 /\
   char_address (cgaddress lcd0) (128 + 0) < 0x10000 /\
   char_address (cgaddress lcd0) (128 + 0 + Z.of_nat (List.length [0x0102030405060708])) <= 0x10000)
  /\ RA6963.definechars quiet [0x0102030405060708] 0 (mkState lcd0 []) =
       (Return VNone,
        mkState lcd0
          [ WriteData (_dev lcd0) [0x00; 0x7C];
            WriteCommand (_dev lcd0) 0x24;
            WriteCommand (_dev lcd0) 0xB0;
            WriteData (_dev lcd0) [1; 2; 3; 4; 5; 6; 7; 8];
            WriteCommand (_dev lcd0) 0xB2 ]).
Proof.
  assert (H1 : 0 <= cgaddress lcd0) by (cbn; lia).
  assert (H2 : 0 <= 0) by lia.
  assert (H3 : char_address (cgaddress lcd0) (128 + 0) < 0x10000)
    by (vm_compute; reflexivity).
  assert (H4 : char_address (cgaddress lcd0)
                 (128 + 0 + Z.of_nat (List.length [0x0102030405060708])) <= 0x10000)
    by (vm_compute; discriminate).
  split; [auto|].
  exact (proj1 (definechars_writes_from_character_128
                  quiet lcd0 [] [0x0102030405060708] 0 H1 H2 H3 H4)).
Defined.

(** At location -1 the pointer is set to 0x7BF8, the address of
    character 127, and the glyph goes into one of the first 128
    characters; at location 8064 the target 0x17800 does not fit in
    sixteen bits and the pointer is set to 0x7800, the address of
    character 0. *)
Lemma definechars_reaches_character_127 :
  RA6963.definechars quiet [0x0102030405060708] (-1) (mkState lcd0 []) =
    (Return VNone,
     mkState lcd0
       [ WriteData (_dev lcd0) [0xF8; 0x7B];
         WriteCommand (_dev lcd0) 0x24;
         WriteCommand (_dev lcd0) 0xB0;
         WriteData (_dev lcd0) [1; 2; 3; 4; 5; 6; 7; 8];
         WriteCommand (_dev lcd0) 0xB2 ])
  /\ le_value [0xF8; 0x7B] = char_address (cgaddress lcd0) 127
  /\ char_address (cgaddress lcd0) 127 < char_address (cgaddress lcd0) 128
  /\ RA6963.definechars quiet [0x0102030405060708] 8064 (mkState lcd0 []) =
    (Return VNone,
     mkState lcd0
       [ WriteData (_dev lcd0) [0x00; 0x78];
         WriteCommand (_dev lcd0) 0x24;
         WriteCommand (_dev lcd0) 0xB0;
         WriteData (_dev lcd0) [1; 2; 3; 4; 5; 6; 7; 8];
         WriteCommand (_dev lcd0) 0xB2 ])
  /\ le_value [0x00; 0x78] = char_address (cgaddress lcd0) 0.
Proof. repeat split. Qed.

(** ** Reading on a write-only bus *)

Lemma c_int_range v : - 2 ^ 31 <= c_int v < 2 ^ 31.
Proof.
  unfold c_int. pose proof (Z.mod_pos_bound (v + 2 ^ 31) (2 ^ 32) ltac:(lia)). lia.
Qed.

Lemma stored_length store k buffer :
  List.length (parallel.stored store k buffer) = List.length buffer.
Proof.
  revert k; induction buffer as [|b buffer IH]; intros k; cbn; [reflexivity|].
  now rewrite IH.
Qed.

(** C7, as the code has it.  The class never looks at the RD line and
    has no error of its own to raise: also on an instance without one,
    [readstatus] makes its [readregister] call and returns the C int
    that call leaves, and [readdata] sends the auto-read opcode 0xB1
    with [writecommand], makes its [readdata] call and sends the
    auto-reset opcode 0xB2.  Both return normally. *)
Theorem reads_on_write_only_bus so i tr datapos datanum :
  write_only (_dev i) = true ->
  let s := mkState i tr in
  let dev := _dev i in
  (exists r, - 2 ^ 31 <= r < 2 ^ 31 /\
     RA6963.readstatus so s =
       (Return (VInt r), mkState i (tr ++ [ReadRegister dev r]))) /\
  (exists after, List.length after = List.length datapos /\
     RA6963.readdata so datapos datanum s =
       (Return (VNone, after),
        mkState i (tr ++ [ WriteCommand dev 0xB1;
                           ReadData dev (c_int datanum) after;
                           WriteCommand dev 0xB2 ]))).
Proof.
  intros _. destruct i as [px py rst a dm ms dev ta ga ca]. cbv zeta. split.
  - eexists. split; [apply c_int_range|]. run. reflexivity.
  - eexists. split; [apply stored_length|].
    cbv [RA6963.readdata parallel.writecommand parallel.readdata
         bind ret attr emit history global lookup module_globals
         String.eqb Ascii.eqb Bool.eqb self trace _dev].
    change (c_ubyte 177) with 177. change (c_ubyte 178) with 178.
    rewrite <- !app_assoc. reflexivity.
Qed.

(** [lcd0] has no RD line. *)
Lemma reads_on_lcd0 :
  write_only (_dev lcd0) = true /\
  exists r after,
    RA6963.readstatus quiet (mkState lcd0 []) =
      (Return (VInt r), mkState lcd0 [ReadRegister (_dev lcd0) r]) /\
    RA6963.readdata quiet [0; 0] 2 (mkState lcd0 []) =
      (Return (VNone, after),
       mkState lcd0 [ WriteCommand (_dev lcd0) 0xB1;
                      ReadData (_dev lcd0) (c_int 2) after;
                      WriteCommand (_dev lcd0) 0xB2 ]).
Proof.
  split; [reflexivity|].
  destruct (reads_on_write_only_bus quiet lcd0 [] [0; 0] 2 eq_refl)
    as [[r [_ Hr]] [after [_ Ha]]].
  exists r, after. split; [exact Hr | exact Ha].
Defined.

(** On [lcd0], which has no RD line, neither read raises
    [UnsupportedOperation]; both return, and the block read has by then
    driven the bus twice with [writecommand]. *)
Lemma write_only_reads_return :
  write_only (_dev lcd0) = true /\
  fst (RA6963.readstatus quiet (mkState lcd0 [])) <> Raise UnsupportedOperation /\
  fst (RA6963.readstatus quiet (mkState lcd0 [])) = Return (VInt 0) /\
  fst (RA6963.readdata quiet [0; 0] 2 (mkState lcd0 [])) <> Raise UnsupportedOperation /\
  emitted (RA6963.readdata quiet [0; 0] 2) (mkState lcd0 []) =
    [ WriteCommand (_dev lcd0) 0xB1;
      ReadData (_dev lcd0) 2 [0; 0];
      WriteCommand (_dev lcd0) 0xB2 ].
Proof.
  split; [reflexivity|]. split; [vm_compute; discriminate|].
  split; [vm_compute; reflexivity|]. split; [vm_compute; discriminate|].
  vm_compute; reflexivity.
Qed.

(** ** [cursormove] and the display-mode byte *)

Lemma cursormove_run so i tr move :
  RA6963.cursormove so move (mkState i tr) =
  (Return VNone,
   mkState (set_displaymode
              (VInt (c_int (writecommand_result so tr (_dev i)
                              (if move then 0x60 else 0x61)))) i)
           (tr ++ [WriteCommand (_dev i) (if move then 0x60 else 0x61)])).
Proof.
  destruct i as [px py rst a dm ms dev ta ga ca].
  destruct move; run; reflexivity.
Qed.

(** C9, as the code has it.  [writecommand] is a ctypes function with
    no restype set, so the call evaluates to a C int, not to [None]:
    [cursormove] sends 0x60 or 0x61 and stores that integer as the
    display mode.  The stored display mode is therefore never [None],
    and a following [cursorblink], [cursordisplay] or [displaymode]
    returns normally. *)
Theorem cursormove_stores_writecommand_result so i tr (move blink display text graphic : bool) :
  let s := mkState i tr in
  let opcode := if move then 0x60 else 0x61 in
  let r := c_int (writecommand_result so tr (_dev i) opcode) in
  let s1 := snd (RA6963.cursormove so move s) in
  RA6963.cursormove so move s =
    (Return VNone,
     mkState (set_displaymode (VInt r) i) (tr ++ [WriteCommand (_dev i) opcode]))
  /\ - 2 ^ 31 <= r < 2 ^ 31
  /\ _displaymode (self s1) = VInt r
  /\ _displaymode (self s1) <> VNone
  /\ fst (RA6963.cursorblink so blink s1) = Return VNone
  /\ fst (RA6963.cursordisplay so display s1) = Return VNone
  /\ fst (RA6963.displaymode so text graphic s1) = Return VNone.
Proof.
  cbv zeta. rewrite cursormove_run. cbn [snd self].
  split; [reflexivity|]. split; [apply c_int_range|].
  destruct i as [px py rst a dm ms dev ta ga ca]. cbn [set_displaymode _displaymode].
  split; [reflexivity|]. split; [discriminate|].
  split; [|split].
  - destruct blink; run; reflexivity.
  - destruct display; run; reflexivity.
  - destruct text, graphic; run; reflexivity.
Qed.

(** On [lcd0], after [cursormove(True)] the stored display mode is the
    integer 0, not [None], and [cursorblink(True)] returns instead of
    raising [TypeError]; it sends 0x91. *)
Lemma cursormove_then_cursorblink :
  let s1 := snd (RA6963.cursormove quiet true (mkState lcd0 [])) in
  _displaymode (self s1) = VInt 0 /\
  _displaymode (self s1) <> VNone /\
  fst (RA6963.cursorblink quiet true s1) = Return VNone /\
  fst (RA6963.cursorblink quiet true s1) <> Raise TypeError /\
  emitted (RA6963.cursorblink quiet true) s1 = [WriteCommand (_dev lcd0) 0x91].
Proof.
  cbv zeta. split; [vm_compute; reflexivity|]. split; [vm_compute; discriminate|].
  split; [vm_compute; reflexivity|]. split; [vm_compute; discriminate|].
  vm_compute; reflexivity.
Qed.

(** ** The flag setters *)

(** C2 at [cursormove].  Whatever display mode [d] is stored,
    [cursormove] replaces it by the result of its [writecommand] call,
    which does not depend on [d]: the flags that were stored are lost,
    so of the display modes 0x04 (text on) and 0x08 (graphic on) at
    least one is not kept.  What it sends is 0x60 or 0x61, not the
    display mode with its opcode. *)
Theorem cursormove_overwrites_displaymode so i tr (move : bool) d :
  let call d := RA6963.cursormove so move (mkState (set_displaymode (VInt d) i) tr) in
  let after d := _displaymode (self (snd (call d))) in
  after d = VInt (c_int (writecommand_result so tr (_dev i) (if move then 0x60 else 0x61)))
  /\ after d = after 0x04
  /\ (after 0x04 <> VInt 0x04 \/ after 0x08 <> VInt 0x08)
  /\ emitted (RA6963.cursormove so move) (mkState (set_displaymode (VInt d) i) tr)
     = [WriteCommand (_dev i) (if move then 0x60 else 0x61)].
Proof.
  cbv beta zeta. rewrite !cursormove_run. cbn [snd self].
  destruct i as [px py rst a dm ms dev ta ga ca].
  cbn [set_displaymode _displaymode _dev].
  split; [reflexivity|]. split; [reflexivity|]. split.
  - destruct (Z.eq_dec (c_int (writecommand_result so tr dev (if move then 0x60 else 0x61))) 4)
      as [E|E].
    + right. rewrite E. discriminate.
    + left. intros H. apply E. now inversion H.
  - apply emitted_app. rewrite cursormove_run. reflexivity.
Qed.

(** The other flag setters change one flag of a stored byte and send
    the whole byte with its opcode. *)

Lemma byte_cases (P : Z -> bool) :
  forallb P (map Z.of_nat (seq 0 256)) = true ->
  forall d, 0 <= d < 256 -> P d = true.
Proof.
  intros H d Hd. rewrite forallb_forall in H. apply H.
  apply in_map_iff. exists (Z.to_nat d). split; [lia|].
  apply in_seq. lia.
Qed.

(** A flag among the low four bits leaves a byte a byte, and the byte
    with the opcode 0x80 or 0x90 is sent whole. *)
Lemma set_flag_byte d k on :
  0 <= d < 256 -> In k [0x01; 0x02; 0x04; 0x08] ->
  0 <= set_flag d k on < 256 /\
  c_ubyte (Z.lor 0x90 (set_flag d k on)) = Z.lor 0x90 (set_flag d k on) /\
  c_ubyte (Z.lor 0x80 (set_flag d k on)) = Z.lor 0x80 (set_flag d k on).
Proof.
  intros Hd Hk.
  pose (P := fun d =>
    forallb (fun k => forallb (fun on =>
      (0 <=? set_flag d k on) && (set_flag d k on <? 256)
      && (c_ubyte (Z.lor 0x90 (set_flag d k on)) =? Z.lor 0x90 (set_flag d k on))
      && (c_ubyte (Z.lor 0x80 (set_flag d k on)) =? Z.lor 0x80 (set_flag d k on)))
      [true; false]) [0x01; 0x02; 0x04; 0x08]).
  assert (H : P d = true) by (apply byte_cases; [vm_compute; reflexivity | exact Hd]).
  unfold P in H. rewrite forallb_forall in H. specialize (H k Hk).
  rewrite forallb_forall in H.
  assert (Hon : In on [true; false]) by (destruct on; cbn; auto).
  specialize (H on Hon).
  rewrite !andb_true_iff in H. destruct H as [[[H1 H2] H3] H4].
  apply Z.leb_le in H1. apply Z.ltb_lt in H2.
  apply Z.eqb_eq in H3. apply Z.eqb_eq in H4. auto.
Qed.

(** Only the bits of [k] can differ between [d] and [set_flag d k on]. *)
Lemma set_flag_other_bits d k on n :
  0 <= n -> Z.testbit k n = false ->
  Z.testbit (set_flag d k on) n = Z.testbit d n.
Proof.
  intros Hn Hk. unfold set_flag. destruct on.
  - rewrite Z.lor_spec, Hk. apply orb_false_r.
  - rewrite Z.land_spec, Z.lnot_spec, Hk by exact Hn. apply andb_true_r.
Qed.

Lemma display_setters_run so i tr d (blink display text graphic : bool) :
  _displaymode i = VInt d ->
  let send d' := (Return VNone,
                  mkState (set_displaymode (VInt d') i)
                          (tr ++ [WriteCommand (_dev i) (c_ubyte (Z.lor 0x90 d'))])) in
  RA6963.cursorblink so blink (mkState i tr) = send (set_flag d 0x01 blink) /\
  RA6963.cursordisplay so display (mkState i tr) = send (set_flag d 0x02 display) /\
  RA6963.displaymode so text graphic (mkState i tr)
    = send (set_flag (set_flag d 0x04 text) 0x08 graphic).
Proof.
  destruct i as [px py rst a dm ms dev ta ga ca]. cbn [_displaymode].
  intros ->. cbv zeta. unfold set_flag. split; [|split].
  - destruct blink; run; reflexivity.
  - destruct display; run; reflexivity.
  - destruct text, graphic; run; reflexivity.
Qed.

Lemma modeset_setters_run so i tr d (external : bool) mode :
  _modeset i = VInt d ->
  let send d' := (Return VNone,
                  mkState (set_modeset (VInt d') i)
                          (tr ++ [WriteCommand (_dev i) (c_ubyte (Z.lor 0x80 d'))])) in
  let cleared := Z.land d (Z.lnot 0x07) in
  RA6963.externalcg so external (mkState i tr) = send (set_flag d 0x08 external) /\
  RA6963.modeset so mode (mkState i tr)
    = send (if mode =? 1 then Z.lor cleared 0x00
            else if mode =? 2 then Z.lor cleared 0x01
            else if mode =? 3 then Z.lor cleared 0x03
            else if mode =? 4 then Z.lor cleared 0x04
            else cleared).
Proof.
  destruct i as [px py rst a dm ms dev ta ga ca]. cbn [_modeset].
  intros ->. cbv zeta. unfold set_flag. split.
  - destruct external; run; reflexivity.
  - run.
    change (Z.lnot (Z.lor (Z.lor (Z.lor 0 1) 3) 4)) with (Z.lnot 7).
    destruct (Z.eqb_spec mode 1) as [->|H1].
    { run. reflexivity. }
    destruct (Z.eqb_spec mode 2) as [->|H2].
    { run. reflexivity. }
    destruct (Z.eqb_spec mode 3) as [->|H3].
    { run. reflexivity. }
    destruct (Z.eqb_spec mode 4) as [->|H4]; run; reflexivity.
Qed.

(** ** Sequences of calls *)

Ltac exec :=
  cbv [invoke RA6963.bitreset RA6963.bitset RA6963.blinktime RA6963.cgromfont
       RA6963.cursorpattern RA6963.screencopy RA6963.screenpeek RA6963.writedata];
  run.














(** ** More on [startup] *)

(** X4.  For a configured character-generator address that fits in
    sixteen bits, [startup] stores the multiple of 0x0800 at or just
    below it, and the word it sends with the opcode 0x22 is that
    address divided by 0x0800: one byte from 0 to 31, then 0. *)
Theorem startup_rounds_down so i tr t g c rest :
  0 <= c < 0x10000 ->
  let s' := snd (RA6963.startup so (mkState (set_addr (Some (t :: g :: c :: rest)) i) tr)) in
  let stored := cgaddress (self s') in
  stored = 0x0800 * (c / 0x0800) /\
  stored <= c < stored + 0x0800 /\
  0 <= stored / 0x0800 < 32 /\
  exists evs,
    trace s' = tr ++ evs ++ [ WriteData (_dev i) [stored / 0x0800; 0];
                              WriteCommand (_dev i) 0x22 ].
Proof.
  intros Hc. cbv zeta. rewrite startup_run. cbn [addr set_addr snd self cgaddress set_cgaddress].
  assert (Hq : 0 <= c / 0x0800 < 32)
    by (split; [apply Z.div_pos; lia | apply Z.div_lt_upper_bound; lia]).
  assert (Hr : rounded c = 0x0800 * (c / 0x0800)).
  { unfold rounded. destruct (Z.eqb_spec (c mod 0x0800) 0) as [E|E].
    - pose proof (Z.div_mod c 0x0800 ltac:(lia)). lia.
    - rewrite land_F800. now rewrite (Z.mod_small (c / 0x0800) 32) by exact Hq. }
  assert (Hd : rounded c / 0x0800 = c / 0x0800).
  { rewrite Hr, Z.mul_comm. apply Z.div_mul. lia. }
  pose proof (Z.div_mod c 0x0800 ltac:(lia)) as Hdm.
  pose proof (Z.mod_pos_bound c 0x0800 ltac:(lia)) as Hmb.
  split; [exact Hr|]. split; [lia|]. split; [now rewrite Hd|].
  unfold startup_events. cbn [_dev _rst _pixx set_addr].
  rewrite (word16 (Z.shiftr (rounded c) 11)).
  rewrite Z.shiftr_div_pow2 by lia. change (2 ^ 11) with 0x0800. rewrite Hd.
  rewrite (Z.mod_small (c / 0x0800) 65536) by lia.
  rewrite (Z.mod_small (c / 0x0800) 256) by lia.
  rewrite (Z.div_small (c / 0x0800) 256) by lia.
  eexists (_ ++ _). rewrite <- app_assoc. reflexivity.
Qed.

(** Configured with 0x1FFF, [lcd0] stores 0x1800 and sends 3, 0. *)
Lemma startup_rounds_0x1FFF :
  0 <= 0x1FFF < 0x10000 /\
  cgaddress (self (snd (RA6963.startup quiet
     (mkState (set_addr (Some [0x0000; 0x1000; 0x1FFF]) lcd0) [])))) = 0x1800.
Proof.
  assert (H : 0 <= 0x1FFF < 0x10000) by lia.
  split; [exact H|].
  exact (proj1 (startup_rounds_down quiet lcd0 [] 0x0000 0x1000 0x1FFF [] H)).
Defined.

Lemma startup_emitted so i tr :
  exists evs,
    trace (snd (RA6963.startup so (mkState i tr))) = tr ++ evs /\
    Forall (fun opcode => In opcode [0x40; 0x41; 0x42; 0x43; 0x22]) (commands evs) /\
    firstn 2 evs = [GpioWrite (c_uint (_rst i)) 0; GpioWrite (c_uint (_rst i)) 1].
Proof.
  rewrite startup_run.
  destruct (addr i) as [[|t0 [|g0 [|c0 rest]]]|]; cbn [snd trace]; eexists;
    (split; [reflexivity|]); unfold startup_events.
  - split; [constructor | reflexivity].
  - split; [constructor | reflexivity].
  - split; [constructor | reflexivity].
  - split; [|reflexivity].
    destruct (c0 mod 0x0800 =? 0); cbn [negb app commands];
      repeat (constructor; [cbn [In]; tauto|]); constructor.
  - split; [|reflexivity].
    cbn [app commands]; repeat (constructor; [cbn [In]; tauto|]); constructor.
Qed.

(** X5.  [startup] pulses the reset line but leaves the stored display
    mode and mode set as they were and sends neither: the only opcodes
    it sends are the two home addresses, the two areas and the offset
    register. *)
Theorem startup_leaves_flags so s :
  let s' := snd (RA6963.startup so s) in
  _displaymode (self s') = _displaymode (self s) /\
  _modeset (self s') = _modeset (self s) /\
  Forall (fun opcode => In opcode [0x40; 0x41; 0x42; 0x43; 0x22])
         (commands (emitted (RA6963.startup so) s)) /\
  firstn 2 (emitted (RA6963.startup so) s)
    = [GpioWrite (c_uint (_rst (self s))) 0; GpioWrite (c_uint (_rst (self s))) 1].
Proof.
  destruct s as [i tr]. cbv zeta.
  destruct (startup_emitted so i tr) as (evs & E & Hc & Hf).
  rewrite (emitted_app _ _ evs E). cbn [self].
  split; [|split; [|split; assumption]].
  - rewrite startup_run. destruct i as [px py rst a dm ms dev t g cg]. cbn [addr].
    now destruct a as [[|t0 [|g0 [|c0 rest]]]|].
  - rewrite startup_run. destruct i as [px py rst a dm ms dev t g cg]. cbn [addr].
    now destruct a as [[|t0 [|g0 [|c0 rest]]]|].
Qed.

(** ** Addresses and the pointer *)

Lemma home_runs so i tr :
  RA6963.texthome so (mkState i tr) =
    (Return (VInt (textaddress i)),
     mkState i (tr ++ [ WriteData (_dev i) (le_bytes 2 (c_uint16 (textaddress i)));
                        WriteCommand (_dev i) 0x24 ])) /\
  RA6963.graphichome so (mkState i tr) =
    (Return (VInt (graphicaddress i)),
     mkState i (tr ++ [ WriteData (_dev i) (le_bytes 2 (c_uint16 (graphicaddress i)));
                        WriteCommand (_dev i) 0x24 ])) /\
  RA6963.cghome so (mkState i tr) =
    (Return (VInt (cgaddress i)),
     mkState i (tr ++ [ WriteData (_dev i) (le_bytes 2 (c_uint16 (cgaddress i)));
                        WriteCommand (_dev i) 0x24 ])).
Proof. destruct i. repeat split; exec; reflexivity. Qed.

Lemma setaddress_run so i tr v :
  RA6963.setaddress so v (mkState i tr) =
    (Return VNone,
     mkState i (tr ++ [ WriteData (_dev i) (le_bytes 2 (c_uint16 v));
                        WriteCommand (_dev i) 0x24 ])).
Proof. destruct i. exec. reflexivity. Qed.

(** X6.  [texthome], [graphichome] and [cghome] return the stored
    address, send exactly what [setaddress] sends for it, and change
    nothing in the instance; after [settexthome(v)] and
    [setgraphichome(w)] the first two return [v] and [w]. *)
Theorem home_returns_stored_address so s v w :
  let i := self s in
  (fst (RA6963.texthome so s) = Return (VInt (textaddress i)) /\
   fst (RA6963.graphichome so s) = Return (VInt (graphicaddress i)) /\
   fst (RA6963.cghome so s) = Return (VInt (cgaddress i))) /\
  (snd (RA6963.texthome so s) = snd (RA6963.setaddress so (textaddress i) s) /\
   snd (RA6963.graphichome so s) = snd (RA6963.setaddress so (graphicaddress i) s) /\
   snd (RA6963.cghome so s) = snd (RA6963.setaddress so (cgaddress i) s) /\
   self (snd (RA6963.setaddress so v s)) = i) /\
  (let s2 := snd (RA6963.setgraphichome so w (snd (RA6963.settexthome so v s))) in
   fst (RA6963.texthome so s2) = Return (VInt v) /\
   fst (RA6963.graphichome so s2) = Return (VInt w) /\
   cgaddress (self s2) = cgaddress i).
Proof.
  destruct s as [i tr]. cbv zeta. cbn [self].
  destruct (home_runs so i tr) as (Ht & Hg & Hc).
  rewrite Ht, Hg, Hc, !setaddress_run. cbn [fst snd self].
  split; [auto|]. split; [auto|].
  rewrite settexthome_run. cbn [snd]. rewrite setgraphichome_run. cbn [snd].
  match goal with
  | |- context [RA6963.texthome so (mkState ?j ?t)] =>
      destruct (home_runs so j t) as (Ht' & Hg' & _); rewrite Ht', Hg'
  end.
  destruct i. repeat split.
Qed.

Lemma c_uint16_wraps v : c_uint16 (v + 65536) = c_uint16 v.
Proof. rewrite !c_uint16_mod. apply (Z_mod_plus_full v 1 65536). Qed.

Lemma c_uint8_wraps v : c_uint8 (v + 256) = c_uint8 v.
Proof. unfold c_uint8. rewrite !land_255. apply (Z_mod_plus_full v 1 256). Qed.

(** X7.  Values go out reduced to their width, with no check.
    [settexthome] and [setgraphichome] keep the address as given but
    send only its low sixteen bits, so [v + 65536] is sent as [v] is
    while the home helper afterwards returns [v + 65536]; [setaddress]
    and [blinktime] cannot tell [v + 65536] from [v], nor the three
    single-byte writes [v + 256] from [v]. *)
Theorem values_wrap_silently so s v :
  (emitted (RA6963.settexthome so (v + 65536)) s = emitted (RA6963.settexthome so v) s /\
   fst (RA6963.texthome so (snd (RA6963.settexthome so (v + 65536) s)))
     = Return (VInt (v + 65536))) /\
  (emitted (RA6963.setgraphichome so (v + 65536)) s
     = emitted (RA6963.setgraphichome so v) s /\
   fst (RA6963.graphichome so (snd (RA6963.setgraphichome so (v + 65536) s)))
     = Return (VInt (v + 65536))) /\
  RA6963.setaddress so (v + 65536) s = RA6963.setaddress so v s /\
  RA6963.blinktime so (v + 65536) s = RA6963.blinktime so v s /\
  RA6963.writeincrement so (v + 256) s = RA6963.writeincrement so v s /\
  RA6963.writedecrement so (v + 256) s = RA6963.writedecrement so v s /\
  RA6963.writeonvariable so (v + 256) s = RA6963.writeonvariable so v s.
Proof.
  destruct s as [i tr].
  split; [|split; [|split; [|split; [|split; [|split]]]]].
  - split.
    + erewrite !emitted_app by (rewrite settexthome_run; reflexivity).
      now rewrite c_uint16_wraps.
    + rewrite settexthome_run. cbn [snd].
      match goal with
      | |- context [RA6963.texthome so (mkState ?j ?t)] =>
          destruct (home_runs so j t) as (-> & _ & _)
      end.
      now destruct i.
  - split.
    + erewrite !emitted_app by (rewrite setgraphichome_run; reflexivity).
      now rewrite c_uint16_wraps.
    + rewrite setgraphichome_run. cbn [snd].
      match goal with
      | |- context [RA6963.graphichome so (mkState ?j ?t)] =>
          destruct (home_runs so j t) as (_ & -> & _)
      end.
      now destruct i.
  - now rewrite !setaddress_run, c_uint16_wraps.
  - destruct i. exec. now rewrite c_uint16_wraps.
  - destruct i. exec. now rewrite c_uint8_wraps.
  - destruct i. exec. now rewrite c_uint8_wraps.
  - destruct i. exec. now rewrite c_uint8_wraps.
Qed.

(** X8.  With [xaddr] and [yaddr] from 0 to 255 the two bytes
    [setcursor] sends are [xaddr] and [yaddr] themselves; beyond that
    the column runs over into the row, [setcursor(xaddr + 256, yaddr)]
    doing exactly what [setcursor(xaddr, yaddr + 1)] does. *)
Theorem setcursor_bytes so i tr xaddr yaddr :
  0 <= xaddr < 256 ->
  0 <= yaddr < 256 ->
  RA6963.setcursor so xaddr yaddr (mkState i tr) =
    (Return VNone,
     mkState i (tr ++ [ WriteData (_dev i) [xaddr; yaddr];
                        WriteCommand (_dev i) 0x21 ]))
  /\ RA6963.setcursor so (xaddr + 256) yaddr (mkState i tr)
     = RA6963.setcursor so xaddr (yaddr + 1) (mkState i tr).
Proof.
  intros Hx Hy.
  assert (R : forall x y,
             RA6963.setcursor so x y (mkState i tr) =
             (Return VNone,
              mkState i (tr ++ [ WriteData (_dev i) (le_bytes 2 (c_uint16 (256 * y + x)));
                                 WriteCommand (_dev i) 0x21 ]))).
  { intros x y. destruct i. exec. reflexivity. }
  split.
  - rewrite R, word16.
    rewrite (Z.mod_small (256 * yaddr + xaddr) 65536) by lia.
    replace (256 * yaddr + xaddr) with (xaddr + yaddr * 256) by lia.
    rewrite Z.mod_add, Z.div_add, (Z.mod_small xaddr 256), (Z.div_small xaddr 256) by lia.
    reflexivity.
  - rewrite !R. now replace (256 * yaddr + (xaddr + 256)) with (256 * (yaddr + 1) + xaddr) by lia.
Qed.

(** Column 5 of row 3. *)
Lemma setcursor_5_3 :
  (0 <= 5 < 256 /\ 0 <= 3 < 256) /\
  RA6963.setcursor quiet 5 3 (mkState lcd0 []) =
    (Return VNone,
     mkState lcd0 [ WriteData (_dev lcd0) [5; 3]; WriteCommand (_dev lcd0) 0x21 ]).
Proof.
  assert (Hx : 0 <= 5 < 256) by lia.
  assert (Hy : 0 <= 3 < 256) by lia.
  split; [auto|].
  exact (proj1 (setcursor_bytes quiet lcd0 [] 5 3 Hx Hy)).
Defined.

(** ** Commands that carry a number *)

Lemma below_8 num : 0 <= num < 8 ->
  num = 0 \/ num = 1 \/ num = 2 \/ num = 3 \/ num = 4 \/ num = 5 \/ num = 6 \/ num = 7.
Proof. lia. Qed.

(** X9.  For [num] from 0 to 7, [bitreset], [bitset] and
    [cursorpattern] send their opcode plus [num]: 0xF0 to 0xF7, 0xF8
    to 0xFF and 0xA0 to 0xA7.  Nothing checks the range: [bitreset(num
    + 8)] is [bitset(num)], and [cursorpattern(num + 16)] sends 0xB0
    plus [num], the opcodes of the auto write, read and reset. *)
Theorem numbered_commands so i tr num :
  0 <= num < 8 ->
  let s := mkState i tr in
  let sent opcode := (Return VNone, mkState i (tr ++ [WriteCommand (_dev i) opcode])) in
  RA6963.bitreset so num s = sent (0xF0 + num) /\
  RA6963.bitset so num s = sent (0xF8 + num) /\
  RA6963.cursorpattern so num s = sent (0xA0 + num) /\
  RA6963.bitreset so (num + 8) s = RA6963.bitset so num s /\
  RA6963.cursorpattern so (num + 16) s = sent (0xB0 + num).
Proof.
  intros H. destruct i as [px py rst a dm ms dev t g cg]. cbv zeta.
  destruct (below_8 num H) as [E|[E|[E|[E|[E|[E|[E|E]]]]]]]; subst num;
    repeat split; exec; reflexivity.
Qed.

(** Bit 3. *)
Lemma numbered_commands_3 :
  0 <= 3 < 8 /\
  RA6963.bitset quiet 3 (mkState lcd0 []) =
    (Return VNone, mkState lcd0 [WriteCommand (_dev lcd0) 0xFB]) /\
  RA6963.bitreset quiet 11 (mkState lcd0 []) = RA6963.bitset quiet 3 (mkState lcd0 []).
Proof.
  assert (H : 0 <= 3 < 8) by lia.
  split; [exact H|].
  destruct (numbered_commands quiet lcd0 [] 3 H) as (_ & Hs & _ & Ha & _).
  split; [exact Hs | exact Ha].
Defined.

(** ** The display-mode flags *)

Lemma set_flag_bit d k on n :
  0 <= n ->
  Z.testbit (set_flag d k on) n = if Z.testbit k n then on else Z.testbit d n.
Proof.
  intros Hn. unfold set_flag. destruct on.
  - rewrite Z.lor_spec. destruct (Z.testbit k n); [apply orb_true_r | apply orb_false_r].
  - rewrite Z.land_spec, Z.lnot_spec by exact Hn.
    destruct (Z.testbit k n); [apply andb_false_r | apply andb_true_r].
Qed.

Lemma set_flag_again d k x y : set_flag (set_flag d k x) k y = set_flag d k y.
Proof.
  apply Z.bits_inj'; intros n Hn. rewrite !set_flag_bit by exact Hn.
  now destruct (Z.testbit k n).
Qed.

Lemma set_flag_comm d k1 k2 x y :
  Z.land k1 k2 = 0 ->
  set_flag (set_flag d k1 x) k2 y = set_flag (set_flag d k2 y) k1 x.
Proof.
  intros H. apply Z.bits_inj'; intros n Hn. rewrite !set_flag_bit by exact Hn.
  assert (D : Z.testbit k1 n && Z.testbit k2 n = false)
    by now rewrite <- Z.land_spec, H, Z.bits_0.
  destruct (Z.testbit k1 n), (Z.testbit k2 n); try reflexivity; discriminate D.
Qed.

Lemma nibble_cases (P : Z -> bool) :
  forallb P (map Z.of_nat (seq 0 16)) = true ->
  forall d, 0 <= d < 16 -> P d = true.
Proof.
  intros H d Hd. rewrite forallb_forall in H. apply H.
  apply in_map_iff. exists (Z.to_nat d). split; [lia|].
  apply in_seq. lia.
Qed.

Lemma set_flag_nibble d k on :
  0 <= d < 16 -> In k [0x01; 0x02; 0x04; 0x08] ->
  0 <= set_flag d k on < 16 /\
  c_ubyte (Z.lor 0x90 (set_flag d k on)) = 0x90 + set_flag d k on.
Proof.
  intros Hd Hk.
  pose (P := fun d =>
    forallb (fun k => forallb (fun on =>
      (0 <=? set_flag d k on) && (set_flag d k on <? 16)
      && (c_ubyte (Z.lor 0x90 (set_flag d k on)) =? 0x90 + set_flag d k on))
      [true; false]) [0x01; 0x02; 0x04; 0x08]).
  assert (H : P d = true) by (apply nibble_cases; [vm_compute; reflexivity | exact Hd]).
  unfold P in H. rewrite forallb_forall in H. specialize (H k Hk).
  rewrite forallb_forall in H.
  assert (Hon : In on [true; false]) by (destruct on; cbn; auto).
  specialize (H on Hon).
  rewrite !andb_true_iff in H. destruct H as [[H1 H2] H3].
  apply Z.leb_le in H1. apply Z.ltb_lt in H2. apply Z.eqb_eq in H3. auto.
Qed.

(** X10.  While the stored display mode is one of the sixteen flag
    combinations, [cursorblink], [cursordisplay] and [displaymode]
    keep it one, set bit 0, bit 1, and bits 2 and 3 to their arguments
    and leave the other bits, and send 0x90 plus the new value: a
    display-mode command from 0x90 to 0x9F. *)
Theorem display_setters_on_flags so i tr d (blink display text graphic : bool) :
  _displaymode i = VInt d ->
  0 <= d < 16 ->
  let send d' := (Return VNone,
                  mkState (set_displaymode (VInt d') i)
                          (tr ++ [WriteCommand (_dev i) (0x90 + d')])) in
  let b := set_flag d 0x01 blink in
  let c := set_flag d 0x02 display in
  let m := set_flag (set_flag d 0x04 text) 0x08 graphic in
  (RA6963.cursorblink so blink (mkState i tr) = send b /\ 0 <= b < 16 /\
   Z.testbit b 0 = blink /\ Z.testbit b 1 = Z.testbit d 1 /\
   Z.testbit b 2 = Z.testbit d 2 /\ Z.testbit b 3 = Z.testbit d 3) /\
  (RA6963.cursordisplay so display (mkState i tr) = send c /\ 0 <= c < 16 /\
   Z.testbit c 0 = Z.testbit d 0 /\ Z.testbit c 1 = display /\
   Z.testbit c 2 = Z.testbit d 2 /\ Z.testbit c 3 = Z.testbit d 3) /\
  (RA6963.displaymode so text graphic (mkState i tr) = send m /\ 0 <= m < 16 /\
   Z.testbit m 0 = Z.testbit d 0 /\ Z.testbit m 1 = Z.testbit d 1 /\
   Z.testbit m 2 = text /\ Z.testbit m 3 = graphic).
Proof.
  intros Hi Hd. cbv zeta.
  destruct (display_setters_run so i tr d blink display text graphic Hi) as (Rb & Rc & Rm).
  cbv zeta in Rb, Rc, Rm. rewrite Rb, Rc, Rm.
  destruct (set_flag_nibble d 0x01 blink Hd ltac:(cbn; auto)) as (Bb & Eb).
  destruct (set_flag_nibble d 0x02 display Hd ltac:(cbn; auto)) as (Bc & Ec).
  destruct (set_flag_nibble d 0x04 text Hd ltac:(cbn; auto)) as (Bt & _).
  destruct (set_flag_nibble (set_flag d 0x04 text) 0x08 graphic Bt ltac:(cbn; auto))
    as (Bm & Em).
  rewrite Eb, Ec, Em.
  repeat match goal with |- _ /\ _ => split end;
    try reflexivity; try assumption; try apply Bb; try apply Bc; try apply Bm;
    rewrite ?set_flag_bit by lia; reflexivity.
Qed.

(** From text on, graphic off: turning the cursor on gives 0x96. *)
Lemma display_setters_from_4 :
  (_displaymode (set_displaymode (VInt 4) lcd0) = VInt 4 /\ 0 <= 4 < 16) /\
  RA6963.cursordisplay quiet true (mkState (set_displaymode (VInt 4) lcd0) []) =
    (Return VNone,
     mkState (set_displaymode (VInt 6) lcd0) [WriteCommand (_dev lcd0) 0x96]).
Proof.
  assert (H : 0 <= 4 < 16) by lia.
  split; [split; [reflexivity | exact H]|].
  exact (proj1 (proj1 (proj2 (display_setters_on_flags quiet
           (set_displaymode (VInt 4) lcd0) [] 4 true true true true eq_refl H)))).
Defined.

Lemma set_displaymode_twice u v i :
  set_displaymode v (set_displaymode u i) = set_displaymode v i.
Proof. now destruct i. Qed.

Lemma displaymode_of_set v i : _displaymode (set_displaymode v i) = v.
Proof. now destruct i. Qed.

(** X11.  On any integer display mode the three setters do not
    disturb one another: [cursorblink] and [cursordisplay] can be
    called in either order, so can [cursorblink] and [displaymode],
    and of two calls of the same setter the last one decides. *)
Theorem display_setters_compose so i tr d (x y text graphic text' graphic' : bool) :
  _displaymode i = VInt d ->
  let s := mkState i tr in
  let after (m : M value) (s : State) := snd (m s) in
  self (after (RA6963.cursordisplay so y) (after (RA6963.cursorblink so x) s))
    = self (after (RA6963.cursorblink so x) (after (RA6963.cursordisplay so y) s)) /\
  self (after (RA6963.displaymode so text graphic) (after (RA6963.cursorblink so x) s))
    = self (after (RA6963.cursorblink so x) (after (RA6963.displaymode so text graphic) s)) /\
  self (after (RA6963.cursorblink so y) (after (RA6963.cursorblink so x) s))
    = self (after (RA6963.cursorblink so y) s) /\
  self (after (RA6963.cursordisplay so y) (after (RA6963.cursordisplay so x) s))
    = self (after (RA6963.cursordisplay so y) s) /\
  self (after (RA6963.displaymode so text' graphic')
          (after (RA6963.displaymode so text graphic) s))
    = self (after (RA6963.displaymode so text' graphic') s).
Proof.
  intros Hi. cbv beta zeta.
  assert (S1 : forall j t e (b : bool), _displaymode j = VInt e ->
             snd (RA6963.cursorblink so b (mkState j t))
             = mkState (set_displaymode (VInt (set_flag e 0x01 b)) j)
                       (trace (snd (RA6963.cursorblink so b (mkState j t))))).
  { intros j t e b Hj.
    destruct (display_setters_run so j t e b true true true Hj) as (R & _).
    cbv zeta in R. now rewrite R. }
  assert (S2 : forall j t e (b : bool), _displaymode j = VInt e ->
             snd (RA6963.cursordisplay so b (mkState j t))
             = mkState (set_displaymode (VInt (set_flag e 0x02 b)) j)
                       (trace (snd (RA6963.cursordisplay so b (mkState j t))))).
  { intros j t e b Hj.
    destruct (display_setters_run so j t e true b true true Hj) as (_ & R & _).
    cbv zeta in R. now rewrite R. }
  assert (S3 : forall j t e (b c : bool), _displaymode j = VInt e ->
             snd (RA6963.displaymode so b c (mkState j t))
             = mkState (set_displaymode (VInt (set_flag (set_flag e 0x04 b) 0x08 c)) j)
                       (trace (snd (RA6963.displaymode so b c (mkState j t))))).
  { intros j t e b c Hj.
    destruct (display_setters_run so j t e true true b c Hj) as (_ & _ & R).
    cbv zeta in R. now rewrite R. }
  rewrite (S1 i tr d x Hi), (S2 i tr d y Hi), (S2 i tr d x Hi), (S1 i tr d y Hi),
          (S3 i tr d text graphic Hi), (S3 i tr d text' graphic' Hi).
  repeat match goal with |- _ /\ _ => split end.
  - rewrite (S2 _ _ _ y (displaymode_of_set _ _)), (S1 _ _ _ x (displaymode_of_set _ _)).
    cbn [self]. rewrite !set_displaymode_twice. do 2 f_equal.
    now apply set_flag_comm.
  - rewrite (S3 _ _ _ text graphic (displaymode_of_set _ _)),
            (S1 _ _ _ x (displaymode_of_set _ _)).
    cbn [self]. rewrite !set_displaymode_twice. do 2 f_equal.
    rewrite (set_flag_comm d 0x01 0x04) by reflexivity.
    now rewrite (set_flag_comm _ 0x01 0x08) by reflexivity.
  - rewrite (S1 _ _ _ y (displaymode_of_set _ _)).
    cbn [self]. rewrite !set_displaymode_twice. do 2 f_equal. apply set_flag_again.
  - rewrite (S2 _ _ _ y (displaymode_of_set _ _)).
    cbn [self]. rewrite !set_displaymode_twice. do 2 f_equal. apply set_flag_again.
  - rewrite (S3 _ _ _ text' graphic' (displaymode_of_set _ _)).
    cbn [self]. rewrite !set_displaymode_twice. do 2 f_equal.
    rewrite (set_flag_comm (set_flag d 4 text) 8 4) by reflexivity.
    now rewrite !set_flag_again.
Qed.

(** Blink on and cursor on, in both orders, from display mode 0. *)
Lemma display_setters_compose_on_lcd0 :
  _displaymode lcd0 = VInt 0 /\
  self (snd (RA6963.cursordisplay quiet true
               (snd (RA6963.cursorblink quiet true (mkState lcd0 [])))))
  = self (snd (RA6963.cursorblink quiet true
                 (snd (RA6963.cursordisplay quiet true (mkState lcd0 []))))).
Proof.
  split; [reflexivity|].
  exact (proj1 (display_setters_compose quiet lcd0 [] 0 true true true true true true
                  eq_refl)).
Defined.

(** ** The mode set *)

Lemma low_bits_above k n : 0 <= k < 8 -> 3 <= n -> Z.testbit k n = false.
Proof.
  intros Hk Hn. destruct (Z.eq_dec k 0) as [->|Hk0]; [apply Z.bits_0|].
  apply Z.bits_above_log2; [lia|].
  assert (Z.log2 k < 3) by (apply Z.log2_lt_pow2; lia). lia.
Qed.

Lemma mode_bits m k :
  0 <= k < 8 ->
  Z.land (Z.lor (Z.land m (Z.lnot 0x07)) k) 0x07 = k /\
  Z.land (Z.lor (Z.land m (Z.lnot 0x07)) k) (Z.lnot 0x07) = Z.land m (Z.lnot 0x07).
Proof.
  intros Hk. change 0x07 with (Z.ones 3).
  split; apply Z.bits_inj'; intros n Hn;
    rewrite ?Z.land_spec, ?Z.lor_spec, ?Z.land_spec, ?Z.lnot_spec by exact Hn;
    rewrite !Z.testbit_ones_nonneg by lia;
    destruct (Z.ltb_spec n 3) as [L|L]; cbn [negb];
    rewrite ?(low_bits_above k n Hk L);
    destruct (Z.testbit m n), (Z.testbit k n); reflexivity.
Qed.

Lemma modeset_by_mode so j t e x :
  _modeset j = VInt e ->
  RA6963.modeset so x (mkState j t) =
  (Return VNone,
   mkState (set_modeset
              (VInt (Z.lor (Z.land e (Z.lnot 0x07))
                       (if x =? 2 then 0x01 else if x =? 3 then 0x03
                        else if x =? 4 then 0x04 else 0x00))) j)
           (t ++ [WriteCommand (_dev j)
                    (c_ubyte (Z.lor 0x80
                       (Z.lor (Z.land e (Z.lnot 0x07))
                          (if x =? 2 then 0x01 else if x =? 3 then 0x03
                           else if x =? 4 then 0x04 else 0x00))))])).
Proof.
  intros Hj.
  destruct (modeset_setters_run so j t e true x Hj) as (_ & E). cbv zeta in E.
  rewrite E.
  destruct (Z.eqb_spec x 1) as [->|H1]; [reflexivity|].
  destruct (x =? 2); [reflexivity|]. destruct (x =? 3); [reflexivity|].
  destruct (x =? 4); [reflexivity|].
  now rewrite Z.lor_0_r.
Qed.

(** X12.  [modeset] clears the three low bits of the stored mode set
    and puts in 0x01 for mode 2, 0x03 for mode 3, 0x04 for mode 4 and
    nothing for mode 1 or any other number, which therefore selects
    the OR mode too; the bits above, the external character generator
    among them, are kept; the byte sent is 0x80 or'ed with the result;
    of two calls the last one decides. *)
Theorem modeset_selects_mode so i tr m mode mode' :
  _modeset i = VInt m ->
  let code mode :=
    if mode =? 2 then 0x01 else if mode =? 3 then 0x03
    else if mode =? 4 then 0x04 else 0x00 in
  let m' := Z.lor (Z.land m (Z.lnot 0x07)) (code mode) in
  RA6963.modeset so mode (mkState i tr) =
    (Return VNone,
     mkState (set_modeset (VInt m') i)
             (tr ++ [WriteCommand (_dev i) (c_ubyte (Z.lor 0x80 m'))])) /\
  Z.land m' 0x07 = code mode /\
  Z.land m' (Z.lnot 0x07) = Z.land m (Z.lnot 0x07) /\
  Z.testbit m' 3 = Z.testbit m 3 /\
  self (snd (RA6963.modeset so mode' (snd (RA6963.modeset so mode (mkState i tr)))))
    = self (snd (RA6963.modeset so mode' (mkState i tr))).
Proof.
  intros Hi code m'.
  assert (Hcode : forall x, 0 <= code x < 8).
  { intros x. unfold code.
    destruct (x =? 2); [lia|]. destruct (x =? 3); [lia|]. destruct (x =? 4); lia. }
  assert (R : forall j t e x, _modeset j = VInt e ->
             RA6963.modeset so x (mkState j t) =
             (Return VNone,
              mkState (set_modeset (VInt (Z.lor (Z.land e (Z.lnot 0x07)) (code x))) j)
                      (t ++ [WriteCommand (_dev j)
                               (c_ubyte (Z.lor 0x80 (Z.lor (Z.land e (Z.lnot 0x07)) (code x))))]))).
  { intros j t e x Hj. unfold code. now apply modeset_by_mode. }
  destruct (mode_bits m (code mode) (Hcode mode)) as (B1 & B2).
  split; [apply R, Hi|]. split; [exact B1|]. split; [exact B2|]. split.
  - assert (T : Z.testbit (Z.land m' (Z.lnot 0x07)) 3 = Z.testbit (Z.land m (Z.lnot 0x07)) 3)
      by (unfold m'; now rewrite B2).
    rewrite !Z.land_spec in T. change (Z.testbit (Z.lnot 0x07) 3) with true in T.
    now rewrite !andb_true_r in T.
  - rewrite (R i tr m mode Hi), (R i tr m mode' Hi). cbn [snd].
    rewrite (R _ _ m' mode') by now destruct i.
    cbn [snd self]. unfold m'. rewrite B2. now destruct i.
Qed.

(** Mode 3 on a mode set with the external generator selected. *)
Lemma modeset_3_on_external :
  _modeset (set_modeset (VInt 0x08) lcd0) = VInt 0x08 /\
  RA6963.modeset quiet 3 (mkState (set_modeset (VInt 0x08) lcd0) []) =
    (Return VNone,
     mkState (set_modeset (VInt 0x0B) lcd0) [WriteCommand (_dev lcd0) 0x8B]).
Proof.
  split; [reflexivity|].
  exact (proj1 (modeset_selects_mode quiet (set_modeset (VInt 0x08) lcd0) [] 0x08 3 3
                  eq_refl)).
Defined.

Lemma external_bit_commutes m k (on : bool) :
  0 <= k < 8 ->
  Z.lor (Z.land (set_flag m 0x08 on) (Z.lnot 0x07)) k
  = set_flag (Z.lor (Z.land m (Z.lnot 0x07)) k) 0x08 on.
Proof.
  intros Hk. apply Z.bits_inj'; intros n Hn.
  rewrite set_flag_bit, !Z.lor_spec, !Z.land_spec, set_flag_bit, Z.lnot_spec by exact Hn.
  change 0x07 with (Z.ones 3). rewrite Z.testbit_ones_nonneg by lia.
  change 0x08 with (2 ^ 3). rewrite Z.pow2_bits_eqb by lia.
  destruct (Z.eqb_spec 3 n) as [<-|Hne].
  - rewrite (low_bits_above k 3 Hk) by lia. cbn. now rewrite orb_false_r, andb_true_r.
  - reflexivity.
Qed.

(** X13.  [externalcg] and [modeset] can be called in either order:
    the stored mode set is the same, with the mode in its low three
    bits and the external character generator in bit 3. *)
Theorem externalcg_modeset_commute so i tr m (on : bool) mode :
  _modeset i = VInt m ->
  let s := mkState i tr in
  self (snd (RA6963.modeset so mode (snd (RA6963.externalcg so on s))))
    = self (snd (RA6963.externalcg so on (snd (RA6963.modeset so mode s)))) /\
  (exists m', _modeset (self (snd (RA6963.externalcg so on
                                     (snd (RA6963.modeset so mode s))))) = VInt m' /\
              Z.testbit m' 3 = on /\
              Z.land m' 0x07 = (if mode =? 2 then 0x01 else if mode =? 3 then 0x03
                                else if mode =? 4 then 0x04 else 0x00)).
Proof.
  intros Hi. cbv zeta.
  pose (code := if mode =? 2 then 0x01 else if mode =? 3 then 0x03
                else if mode =? 4 then 0x04 else 0x00).
  assert (Hcode : 0 <= code < 8).
  { unfold code. destruct (mode =? 2); [lia|]. destruct (mode =? 3); [lia|].
    destruct (mode =? 4); lia. }
  assert (RM : forall j t e, _modeset j = VInt e ->
             exists t',
               snd (RA6963.modeset so mode (mkState j t)) =
               mkState (set_modeset (VInt (Z.lor (Z.land e (Z.lnot 0x07)) code)) j) t').
  { intros j t e Hj.
    rewrite (modeset_by_mode so j t e mode Hj). fold code. eexists. reflexivity. }
  assert (RE : forall j t e, _modeset j = VInt e ->
             exists t',
               snd (RA6963.externalcg so on (mkState j t)) =
               mkState (set_modeset (VInt (set_flag e 0x08 on)) j) t').
  { intros j t e Hj.
    destruct (modeset_setters_run so j t e on mode Hj) as (E & _).
    cbv zeta in E. rewrite E. eexists. reflexivity. }
  assert (Hset : forall v, _modeset (set_modeset (VInt v) i) = VInt v) by now destruct i.
  destruct (RE i tr m Hi) as (t1 & ->).
  destruct (RM i tr m Hi) as (t2 & ->).
  destruct (RM _ t1 _ (Hset (set_flag m 0x08 on))) as (t3 & ->).
  destruct (RE _ t2 _ (Hset (Z.lor (Z.land m (Z.lnot 0x07)) code))) as (t4 & ->).
  cbn [self]. split.
  - rewrite external_bit_commutes by exact Hcode. now destruct i.
  - exists (set_flag (Z.lor (Z.land m (Z.lnot 0x07)) code) 0x08 on).
    split; [now destruct i|]. split.
    + now rewrite set_flag_bit by lia.
    + rewrite <- external_bit_commutes by exact Hcode.
      apply (mode_bits (set_flag m 0x08 on) code Hcode).
Qed.

(** External generator on, then mode 2, on [lcd0]. *)
Lemma externalcg_modeset_on_lcd0 :
  _modeset lcd0 = VInt 0 /\
  self (snd (RA6963.modeset quiet 2 (snd (RA6963.externalcg quiet true (mkState lcd0 [])))))
  = self (snd (RA6963.externalcg quiet true (snd (RA6963.modeset quiet 2 (mkState lcd0 []))))).
Proof.
  split; [reflexivity|].
  exact (proj1 (externalcg_modeset_commute quiet lcd0 [] 0 true 2 eq_refl)).
Defined.

(** ** Glyphs as a bulk write *)

Lemma payload_app a b : payload (a ++ b) = payload a ++ payload b.
Proof.
  induction a as [|e a IH]; [reflexivity|].
  destruct e; cbn [app payload]; rewrite IH; try reflexivity.
  now rewrite app_assoc.
Qed.

Lemma commands_app a b : commands (a ++ b) = commands a ++ commands b.
Proof.
  induction a as [|e a IH]; [reflexivity|].
  destruct e; cbn [app commands]; now rewrite IH.
Qed.

Lemma payload_glyphs dev (chars : list Z) :
  payload (map (fun g => WriteData dev (be_bytes 8 (c_uint64 g))) chars)
    = List.concat (map (fun g => be_bytes 8 (c_uint64 g)) chars) /\
  commands (map (fun g => WriteData dev (be_bytes 8 (c_uint64 g))) chars) = [] /\
  List.length (List.concat (map (fun g => be_bytes 8 (c_uint64 g)) chars))
    = (8 * List.length chars)%nat.
Proof.
  induction chars as [|g chars (IH1 & IH2 & IH3)]; [repeat split|].
  cbn [map payload commands List.concat]. rewrite IH1, IH2, length_app, IH3.
  destruct (glyph_bytes g) as (L & _). rewrite L.
  repeat split. cbn [List.length]. lia.
Qed.

(** X14.  What [definechars] hands to the bus is what [setaddress] on
    the target followed by one [writedata] of all the glyph bytes
    hands to it: the same bytes in the same order, eight per glyph,
    under the same opcodes 0x24, 0xB0, 0xB2; the glyphs only go out in
    one call each.  With no glyph the pointer is still moved and the
    auto write opened and closed. *)
Theorem definechars_is_a_bulk_write so i tr chars location :
  8 * Z.of_nat (List.length chars) < 2 ^ 31 ->
  let s := mkState i tr in
  let pointer := cgaddress i + 128 * 8 + location * 8 in
  let glyphs := List.concat (map (fun g => be_bytes 8 (c_uint64 g)) chars) in
  let bulk := (RA6963.setaddress so pointer ;;
               RA6963.writedata so glyphs (8 * Z.of_nat (List.length chars))) in
  payload (emitted (RA6963.definechars so chars location) s)
    = le_bytes 2 (c_uint16 pointer) ++ glyphs /\
  commands (emitted (RA6963.definechars so chars location) s) = [0x24; 0xB0; 0xB2] /\
  List.length glyphs = (8 * List.length chars)%nat /\
  payload (emitted bulk s) = payload (emitted (RA6963.definechars so chars location) s) /\
  commands (emitted bulk s) = commands (emitted (RA6963.definechars so chars location) s) /\
  self (snd (bulk s)) = self (snd (RA6963.definechars so chars location s)).
Proof.
  intros Hlen. cbv zeta.
  destruct (payload_glyphs (_dev i) chars) as (P & C & L).
  assert (F : firstn (Z.to_nat (c_int (8 * Z.of_nat (List.length chars))))
                (List.concat (map (fun g => be_bytes 8 (c_uint64 g)) chars))
              = List.concat (map (fun g => be_bytes 8 (c_uint64 g)) chars)).
  { unfold c_int.
    rewrite (Z.mod_small (8 * Z.of_nat (List.length chars) + 2 ^ 31) (2 ^ 32)) by lia.
    replace (8 * Z.of_nat (List.length chars) + 2 ^ 31 - 2 ^ 31)
      with (Z.of_nat (8 * List.length chars)) by lia.
    rewrite Nat2Z.id, <- L. apply firstn_all. }
  assert (B : (RA6963.setaddress so (cgaddress i + 128 * 8 + location * 8) ;;
               RA6963.writedata so (List.concat (map (fun g => be_bytes 8 (c_uint64 g)) chars))
                 (8 * Z.of_nat (List.length chars))) (mkState i tr)
              = (Return VNone,
                 mkState i
                   (tr ++ [ WriteData (_dev i)
                              (le_bytes 2 (c_uint16 (cgaddress i + 128 * 8 + location * 8)));
                            WriteCommand (_dev i) 0x24;
                            WriteCommand (_dev i) 0xB0;
                            WriteData (_dev i)
                              (List.concat (map (fun g => be_bytes 8 (c_uint64 g)) chars));
                            WriteCommand (_dev i) 0xB2 ]))).
  { unfold bind at 1. rewrite setaddress_run.
    destruct i as [px py rst a dm ms dev t g cg].
    cbv [RA6963.writedata parallel.writecommand parallel.writedata
         bind ret attr emit history global lookup module_globals
         String.eqb Ascii.eqb Bool.eqb self trace _dev].
    change (c_ubyte 176) with 176. change (c_ubyte 178) with 178.
    cbn [cgaddress _dev] in F |- *. rewrite F, <- !app_assoc. reflexivity. }
  rewrite (emitted_app _ _ _ (f_equal (fun r => trace (snd r)) (definechars_run so i tr chars location))).
  rewrite (emitted_app _ _ _ (f_equal (fun r => trace (snd r)) B)).
  rewrite B, definechars_run. cbn [snd self].
  repeat match goal with |- _ /\ _ => split end; try reflexivity.
  - cbn [app payload]. now rewrite payload_app, P, app_nil_r.
  - cbn [app commands]. now rewrite commands_app, C.
  - exact L.
  - cbn [app payload]. now rewrite payload_app, P, !app_nil_r.
  - cbn [app commands]. now rewrite commands_app, C.
Qed.

(** Two glyphs on [lcd0]. *)
Lemma definechars_two_glyphs :
  8 * Z.of_nat (List.length [0x0102030405060708; 0x1112131415161718]) < 2 ^ 31 /\
  payload (emitted (RA6963.definechars quiet [0x0102030405060708; 0x1112131415161718] 0)
             (mkState lcd0 []))
  = [0x00; 0x7C; 1; 2; 3; 4; 5; 6; 7; 8; 0x11; 0x12; 0x13; 0x14; 0x15; 0x16; 0x17; 0x18].
Proof.
  assert (H : 8 * Z.of_nat (List.length [0x0102030405060708; 0x1112131415161718]) < 2 ^ 31)
    by (vm_compute; reflexivity).
  split; [exact H|].
  exact (proj1 (definechars_is_a_bulk_write quiet lcd0 []
                  [0x0102030405060708; 0x1112131415161718] 0 H)).
Defined.

(** ** [startup] after other calls *)



(** ** Opcodes and reads *)

(** X16.  Every command name is bound, and the opcodes are all
    different but for two pairs: [LCD_DATAEREADDECREMENT] has the
    opcode of [LCD_DATAWRITEDECREMENT], 0xC2, and
    [LCD_DATAREADNONVARIABLE] that of [LCD_DATAWRITENONVARIABLE], 0xC4.
    So [readonvariable] sends the very command [writeonvariable]
    sends. *)
Theorem opcodes_shared so s v :
  Forall (fun name => lookup name module_globals <> None) command_names /\
  same_opcode command_names =
    [ ("LCD_DATAWRITEDECREMENT", "LCD_DATAEREADDECREMENT");
      ("LCD_DATAEREADDECREMENT", "LCD_DATAWRITEDECREMENT");
      ("LCD_DATAWRITENONVARIABLE", "LCD_DATAREADNONVARIABLE");
      ("LCD_DATAREADNONVARIABLE", "LCD_DATAWRITENONVARIABLE") ] /\
  commands (emitted (RA6963.readonvariable so) s)
    = commands (emitted (RA6963.writeonvariable so v) s) /\
  commands (emitted (RA6963.readonvariable so) s) = [0xC4] /\
  commands (emitted (RA6963.readincrement so) s) = [0xC1] /\
  commands (emitted (RA6963.writeincrement so v) s) = [0xC0].
Proof.
  split.
  { repeat constructor; discriminate. }
  split; [vm_compute; reflexivity|].
  destruct s as [[px py rst a dm ms dev t g cg] tr].
  repeat split;
    repeat (erewrite emitted_app by (exec; reflexivity)); reflexivity.
Qed.

Lemma stored_nothing k buffer : parallel.stored (fun _ => None) k buffer = buffer.
Proof.
  revert k; induction buffer as [|b buffer IH]; intros k; cbn; [reflexivity|].
  now rewrite IH.
Qed.

(** X17.  The buffer of a single-byte read starts as 0 and that of a
    block read as the caller passed it: when the library stores
    nothing, [readincrement], [readonvariable] and [screenpeek] return
    0 and [readdata] leaves the buffer as it was, each after sending
    its opcode. *)
Theorem reads_when_nothing_is_stored so i tr datapos datanum :
  (forall h n, readdata_store so h (_dev i) n = fun _ => None) ->
  let s := mkState i tr in
  let dev := _dev i in
  RA6963.readincrement so s =
    (Return (VInt 0), mkState i (tr ++ [WriteCommand dev 0xC1; ReadData dev 1 [0]])) /\
  RA6963.readonvariable so s =
    (Return (VInt 0), mkState i (tr ++ [WriteCommand dev 0xC4; ReadData dev 1 [0]])) /\
  RA6963.screenpeek so s =
    (Return (VInt 0), mkState i (tr ++ [WriteCommand dev 0xE0; ReadData dev 1 [0]])) /\
  RA6963.readdata so datapos datanum s =
    (Return (VNone, datapos),
     mkState i (tr ++ [ WriteCommand dev 0xB1;
                        ReadData dev (c_int datanum) datapos;
                        WriteCommand dev 0xB2 ])).
Proof.
  destruct i as [px py rst a dm ms dev t g cg]. cbn [_dev]. intros H. cbv zeta.
  repeat split.
  - exec. rewrite H. reflexivity.
  - exec. rewrite H. reflexivity.
  - exec. rewrite H. reflexivity.
  - cbv [RA6963.readdata parallel.writecommand parallel.readdata
         bind ret attr emit history global lookup module_globals
         String.eqb Ascii.eqb Bool.eqb self trace _dev].
    change (c_ubyte 177) with 177. change (c_ubyte 178) with 178.
    rewrite H, stored_nothing, <- !app_assoc. reflexivity.
Qed.

(** The library [quiet] stores nothing. *)
Lemma reads_with_quiet :
  (forall h n, readdata_store quiet h (_dev lcd0) n = fun _ => None) /\
  RA6963.readincrement quiet (mkState lcd0 []) =
    (Return (VInt 0),
     mkState lcd0 [WriteCommand (_dev lcd0) 0xC1; ReadData (_dev lcd0) 1 [0]]).
Proof.
  assert (H : forall h n, readdata_store quiet h (_dev lcd0) n = fun _ => None)
    by reflexivity.
  split; [exact H|].
  exact (proj1 (reads_when_nothing_is_stored quiet lcd0 [] [] 0 H)).
Defined.
